(** * manet: conversions between multiaddrs and net addresses (convert.go)

    A shallow embedding of package [manet]'s [convert.go].  The package sits
    between two collaborators it only consumes: the multiaddr library
    ([ma]) and the platform's [net] package (with the [utp] wrapper).  The
    functions of [convert.go] are transcribed statement by statement; the
    collaborators are modelled through the interface the package uses. *)

From Stdlib Require Import String Ascii List ZArith Lia Bool.
From Stdlib Require Import DecimalString HexadecimalString.
From stdpp Require Import gmap strings.
Import ListNotations.
Open Scope string_scope.
Open Scope list_scope.
Open Scope stdpp_scope.

(** ** Go values: errors, panics, and the result of a call *)

(** A run-time panic.  The only one this file can raise is an index
    expression out of range. *)
Inductive panic : Type :=
| IndexOutOfRange (index : Z) (len : Z).

(** The error values that flow through [convert.go].  [Error] below gives
    the message each one carries in the source. *)
Inductive error : Type :=
| ErrNilMultiaddr                          (* fmt.Errorf("nil multiaddr") *)
| ErrIncorrectNetAddr                      (* var errIncorrectNetAddr *)
| ErrNotThinWaist (m : string)             (* "%s is not a 'thin waist' address" *)
| ErrNetworkNotSupported (network : string)(* "network not supported: %s" *)
| ErrCollaborator (who what : string).     (* an error made by ma, net or utp *)

Definition Error (e : error) : string :=
  match e with
  | ErrNilMultiaddr => "nil multiaddr"
  | ErrIncorrectNetAddr => "incorrect network addr conversion"
  | ErrNotThinWaist m => m +:+ " is not a 'thin waist' address"
  | ErrNetworkNotSupported network => "network not supported: " +:+ network
  | ErrCollaborator who what => who +:+ ": " +:+ what
  end.

(** What a Go call of type [(T, error)] can do: return a value with a nil
    error, return a non-nil error, or panic. *)
Inductive result (A : Type) : Type :=
| Ret (a : A)
| Err (e : error)
| Panics (p : panic).
Arguments Ret {A} a.
Arguments Err {A} e.
Arguments Panics {A} p.

#[global] Instance result_ret : MRet result := fun A a => Ret a.
#[global] Instance result_bind : MBind result := fun A B f r =>
  match r with
  | Ret a => f a
  | Err e => Err e
  | Panics p => Panics p
  end.

(** [len(l)], a Go [int]. *)
Definition len {A : Type} (l : list A) : Z := Z.of_nat (length l).

(** [l[i]]: panics when [i] is out of range. *)
Definition index {A : Type} (l : list A) (i : Z) : result A :=
  if (i <? 0)%Z then Panics (IndexOutOfRange i (len l))
  else match l !! Z.to_nat i with
       | Some x => Ret x
       | None => Panics (IndexOutOfRange i (len l))
       end.

(** [l[i:]]: panics unless [0 <= i <= len(l)]. *)
Definition slice_from {A : Type} (l : list A) (i : Z) : result (list A) :=
  if (0 <=? i)%Z && (i <=? len l)%Z then Ret (drop (Z.to_nat i) l)
  else Panics (IndexOutOfRange i (len l)).

(** ** Package strings and fmt, as far as the source calls them *)

Module strings.

(** [strings.Split(s, sep)] for a one-byte separator (every call in the
    source passes "/"): the substrings between occurrences of [sep]; the
    result always has one element more than there are separators. *)
Fixpoint Split (s : string) (sep : ascii) : list string :=
  match s with
  | EmptyString => [EmptyString]
  | String c rest =>
      if Ascii.eqb c sep then EmptyString :: Split rest sep
      else match Split rest sep with
           | [] => [String c EmptyString]
           | piece :: pieces => String c piece :: pieces
           end
  end.

(** [strings.Join(elems, sep)]. *)
Definition Join (elems : list string) (sep : string) : string :=
  String.concat sep elems.

(** [strings.TrimRight(s, cutset)] for a one-byte cutset. *)
Fixpoint TrimRight (s : string) (cut : ascii) : string :=
  match s with
  | EmptyString => EmptyString
  | String c rest =>
      match TrimRight rest cut with
      | EmptyString => if Ascii.eqb c cut then EmptyString else String c EmptyString
      | kept => String c kept
      end
  end.

(** The byte [c] does not occur in [s]. *)
Fixpoint free_of (c : ascii) (s : string) : bool :=
  match s with
  | EmptyString => true
  | String a rest => negb (Ascii.eqb a c) && free_of c rest
  end.

End strings.

Module fmt.
(** The verb [%d] applied to an [int]. *)
Definition d (n : Z) : string :=
  DecimalString.NilZero.string_of_int (Z.to_int n).
End fmt.

(** ** The multiaddr collaborator (package ma)

    A multiaddr is an ordered stack of protocol segments, each a protocol
    and, for the protocols that carry one, a value.  Values are kept in
    their canonical text, the form the library prints. *)

Module ma.

Record Protocol : Type := mkProtocol { Name : string }.

Record Segment : Type := mkSegment { Proto : Protocol; Value : option string }.

Definition Multiaddr : Type := list Segment.

(** [m.Protocols()]: the protocols of the segments, outermost first. *)
Definition Protocols (m : Multiaddr) : list Protocol := map Proto m.

(** The slash-separated components of the text of [m]. *)
Definition components (m : Multiaddr) : list string :=
  flat_map (fun s => Name (Proto s) ::
                     match Value s with Some v => [v] | None => [] end) m.

(** [m.String()]: every component preceded by the delimiter. *)
Definition String (m : Multiaddr) : string :=
  String.concat "" (map (fun c => "/" +:+ c) (components m)).

(** [m.Encapsulate(o)]: the segments of [m] followed by those of [o]. *)
Definition Encapsulate (m o : Multiaddr) : Multiaddr := m ++ o.

(** The protocols this package builds text for, with whether a segment of
    that protocol carries a value. *)
Definition carries_value (name : string) : option bool :=
  if (name =? "ip4")%string then Some true
  else if (name =? "ip6")%string then Some true
  else if (name =? "tcp")%string then Some true
  else if (name =? "udp")%string then Some true
  else if (name =? "utp")%string then Some false
  else None.

(** The library's invariant on the segments this package reads: an ip4,
    ip6, tcp or udp segment carries a value, and no value contains the
    delimiter. *)
Definition valid_segment (s : Segment) : bool :=
  match Value s with
  | Some v => strings.free_of "/" v
  | None => match carries_value (Name (Proto s)) with
            | Some true => false
            | _ => true
            end
  end.

Definition valid (m : Multiaddr) : bool := forallb valid_segment m.

Section Codec.
(** The library's value codec: [canon name text] is the canonical text
    of the value [text] of protocol [name], or [None] when the library
    rejects it. *)
Variable canon : string -> string -> option string.

Fixpoint parse (input : string) (sp : list string) : result Multiaddr :=
  match sp with
  | [] => Ret []
  | name :: sp1 =>
      match carries_value name with
      | None => Err (ErrCollaborator "ma" input)
      | Some false =>
          m ← parse input sp1;
          Ret (mkSegment (mkProtocol name) None :: m)
      | Some true =>
          match sp1 with
          | [] => Err (ErrCollaborator "ma" input)
          | text :: sp2 =>
              match canon name text with
              | None => Err (ErrCollaborator "ma" input)
              | Some v =>
                  m ← parse input sp2;
                  Ret (mkSegment (mkProtocol name) (Some v) :: m)
              end
          end
      end
  end.

(** [ma.NewMultiaddr(s)]: trailing delimiters are dropped, the text
    must begin with the delimiter, and the components are read as
    protocol names, each followed by its value when it carries one. *)
Definition NewMultiaddr (s : string) : result Multiaddr :=
  match strings.Split (strings.TrimRight s "/") "/" with
  | first :: sp =>
      if (first =? "")%string then parse s sp
      else Err (ErrCollaborator "ma" s)
  | [] => Err (ErrCollaborator "ma" s)
  end.
End Codec.

End ma.

(** ** The platform collaborator (package net, and utp's address)

    A [net.Addr] is any value that reports a network name and a string.
    The variants are the concrete types [convert.go] asserts on, the [utp]
    wrapper, and one variant for every other implementation. *)

Module net.

(** [net.IP]: a slice of bytes. *)
Definition IP : Type := list Byte.byte.

Definition IPv4len : nat := 4.
Definition IPv6len : nat := 16.

Definition isZeros (p : list Byte.byte) : bool := forallb (Byte.eqb Byte.x00) p.

Definition v4InV6Prefix : list Byte.byte :=
  replicate 10 Byte.x00 ++ [Byte.xff; Byte.xff].

(** [ip.To4()]: the 4-byte form, [None] (nil) when [ip] is not an IPv4
    address: a 4-byte slice is returned as it is, a 16-byte slice whose
    first twelve bytes are the IPv4-in-IPv6 prefix gives its last four. *)
Definition To4 (ip : IP) : option IP :=
  if (length ip =? IPv4len)%nat then Some ip
  else if (length ip =? IPv6len)%nat
          && isZeros (take 10 ip)
          && from_option (Byte.eqb Byte.xff) false (ip !! 10%nat)
          && from_option (Byte.eqb Byte.xff) false (ip !! 11%nat)
       then Some (drop 12 ip)
       else None.

(** [ip.To16()]: the 16-byte form, [None] (nil) when [ip] has neither
    length. *)
Definition To16 (ip : IP) : option IP :=
  if (length ip =? IPv4len)%nat then Some (v4InV6Prefix ++ ip)
  else if (length ip =? IPv6len)%nat then Some ip
  else None.

Inductive Addr : Type :=
| TCPAddr (IP : IP) (Port : Z) (Zone : string)
| UDPAddr (IP : IP) (Port : Z) (Zone : string)
| IPAddr (IP : IP) (Zone : string)
| IPNet (IP : IP) (Mask : list Byte.byte)
| utp_Addr (net : string) (child : Addr)        (* utp.Addr *)
| OtherAddr (network : string) (str : string).  (* any other net.Addr *)

(** [a.Network()]. *)
Definition Network (a : Addr) : string :=
  match a with
  | TCPAddr _ _ _ => "tcp"
  | UDPAddr _ _ _ => "udp"
  | IPAddr _ _ => "ip"
  | IPNet _ _ => "ip+net"
  | utp_Addr net _ => net
  | OtherAddr network _ => network
  end.

End net.

(** ** Package manet *)

Module manet.

Definition isIP (p : ma.Protocol) : bool :=
  (ma.Name p =? "ip4")%string || (ma.Name p =? "ip6")%string.

(** Modelled from the spec: [IsThinWaist] is called by [DialArgs] but its
    file is not among the sources.  The spec (4.2) gives it as: true iff
    the protocol sequence is exactly one IP segment; or an IP segment
    followed by exactly one of tcp, udp; or an IP segment followed by udp
    followed by utp.  Anything else is false; the function is total. *)
Definition IsThinWaist (m : ma.Multiaddr) : bool :=
  match ma.Protocols m with
  | [] => false
  | p0 :: rest =>
      if negb (isIP p0) then false
      else match rest with
           | [] => true
           | [p1] => (ma.Name p1 =? "tcp")%string || (ma.Name p1 =? "udp")%string
           | [p1; p2] => (ma.Name p1 =? "udp")%string && (ma.Name p2 =? "utp")%string
           | _ => false
           end
  end.

(** [DialArgs] (convert.go, 75-102). *)
Definition DialArgs (m : ma.Multiaddr) : result (string * string) :=
  if negb (IsThinWaist m) then Err (ErrNotThinWaist (ma.String m))
  else
    let str := ma.String m in
    parts ← slice_from (strings.Split str "/") 1;
    if (len parts =? 2)%Z then
      p0 ← index parts 0;
      p1 ← index parts 1;
      Ret (p0, p1)
    else
      network ← index parts 2;
      p2 ← index parts 2;
      network ←
        (if (p2 =? "udp")%string && (len parts >? 4)%Z then
           p4 ← index parts 4;
           if (p4 =? "utp")%string then index parts 4 else Ret network
         else Ret network);
      p0 ← index parts 0;
      if (p0 =? "ip4")%string then
        let network := network +:+ "4" in
        p1 ← index parts 1;
        p3 ← index parts 3;
        Ret (network, strings.Join [p1; p3] ":")
      else if (p0 =? "ip6")%string then
        let network := network +:+ "6" in
        p1 ← index parts 1;
        p3 ← index parts 3;
        Ret (network, "[" +:+ p1 +:+ "]:" +:+ p3)
      else
        Ret (network, "").

(** *** The collaborators' entry points

    What [convert.go] calls in [ma], [net] and [utp] beyond the data
    above: the printer of an IP, the value codec behind
    [ma.NewMultiaddr], and the four resolvers. *)
Section Collaborators.

Variable IP_String : net.IP -> string.                  (* ip.String() *)
Variable canon : string -> string -> option string.     (* ma's codec *)
Variable ResolveTCPAddr : string -> string -> result net.Addr.
Variable ResolveUDPAddr : string -> string -> result net.Addr.
Variable ResolveIPAddr : string -> string -> result net.Addr.
Variable utp_ResolveAddr : string -> string -> result net.Addr.

Definition FromNetAddrFunc : Type := net.Addr -> result ma.Multiaddr.
Definition ToNetAddrFunc : Type := ma.Multiaddr -> result net.Addr.

Record AddressSpec : Type := mkAddressSpec {
  Key : string;
  NetNames : list string;
  ParseNetAddr : FromNetAddrFunc;
  ConvertMultiaddr : ToNetAddrFunc
}.

(** [if err != nil { return nil, errIncorrectNetAddr }]. *)
Definition or_incorrect {A : Type} (r : result A) : result A :=
  match r with
  | Err _ => Err ErrIncorrectNetAddr
  | other => other
  end.

(** [parseBasicNetMaddr] (convert.go, 42-60). *)
Definition parseBasicNetMaddr (maddr : ma.Multiaddr) : result net.Addr :=
  '(network, host) ← DialArgs maddr;
  if (network =? "tcp")%string || (network =? "tcp4")%string
     || (network =? "tcp6")%string then ResolveTCPAddr network host
  else if (network =? "udp")%string || (network =? "udp4")%string
     || (network =? "udp6")%string then ResolveUDPAddr network host
  else if (network =? "utp")%string || (network =? "utp4")%string
     || (network =? "utp6")%string then utp_ResolveAddr network host
  else if (network =? "ip")%string || (network =? "ip4")%string
     || (network =? "ip6")%string then ResolveIPAddr network host
  else Err (ErrNetworkNotSupported network).

(** [FromIP] (convert.go, 63-72). *)
Definition FromIP (ip : net.IP) : result ma.Multiaddr :=
  if bool_decide (net.To4 ip <> None) then
    ma.NewMultiaddr canon ("/ip4/" +:+ IP_String ip)
  else if bool_decide (net.To16 ip <> None) then
    ma.NewMultiaddr canon ("/ip6/" +:+ IP_String ip)
  else Err ErrIncorrectNetAddr.

(** [parseTcpNetAddr] (convert.go, 111-131). *)
Definition parseTcpNetAddr (a : net.Addr) : result ma.Multiaddr :=
  match a with
  | net.TCPAddr ac_IP ac_Port _ =>
      ipm ← or_incorrect (FromIP ac_IP);
      tcpm ← or_incorrect (ma.NewMultiaddr canon ("/tcp/" +:+ fmt.d ac_Port));
      Ret (ma.Encapsulate ipm tcpm)
  | _ => Err ErrIncorrectNetAddr
  end.

(** [parseUdpNetAddr] (convert.go, 140-160). *)
Definition parseUdpNetAddr (a : net.Addr) : result ma.Multiaddr :=
  match a with
  | net.UDPAddr ac_IP ac_Port _ =>
      ipm ← or_incorrect (FromIP ac_IP);
      udpm ← or_incorrect (ma.NewMultiaddr canon ("/udp/" +:+ fmt.d ac_Port));
      Ret (ma.Encapsulate ipm udpm)
  | _ => Err ErrIncorrectNetAddr
  end.

(** [parseUtpNetAddr] (convert.go, 169-195). *)
Definition parseUtpNetAddr (a : net.Addr) : result ma.Multiaddr :=
  match a with
  | net.utp_Addr _ (net.UDPAddr ac_IP ac_Port _) =>
      ipm ← or_incorrect (FromIP ac_IP);
      utpm ← or_incorrect
               (ma.NewMultiaddr canon ("/udp/" +:+ fmt.d ac_Port +:+ "/utp"));
      Ret (ma.Encapsulate ipm utpm)
  | _ => Err ErrIncorrectNetAddr
  end.

(** [parseIpNetAddr] (convert.go, 211-217). *)
Definition parseIpNetAddr (a : net.Addr) : result ma.Multiaddr :=
  match a with
  | net.IPAddr ac_IP _ => FromIP ac_IP
  | _ => Err ErrIncorrectNetAddr
  end.

(** [parseIpPlusNetAddr] (convert.go, 219-225). *)
Definition parseIpPlusNetAddr (a : net.Addr) : result ma.Multiaddr :=
  match a with
  | net.IPNet ac_IP _ => FromIP ac_IP
  | _ => Err ErrIncorrectNetAddr
  end.

(** The five address specs (convert.go, 104-209). *)
Definition tcpAddrSpec : AddressSpec :=
  {| Key := "tcp"; NetNames := ["tcp"; "tcp4"; "tcp6"];
     ParseNetAddr := parseTcpNetAddr; ConvertMultiaddr := parseBasicNetMaddr |}.

Definition udpAddrSpec : AddressSpec :=
  {| Key := "udp"; NetNames := ["udp"; "udp4"; "udp6"];
     ParseNetAddr := parseUdpNetAddr; ConvertMultiaddr := parseBasicNetMaddr |}.

Definition utpAddrSpec : AddressSpec :=
  {| Key := "utp"; NetNames := ["utp"; "utp4"; "utp6"];
     ParseNetAddr := parseUtpNetAddr; ConvertMultiaddr := parseBasicNetMaddr |}.

Definition ip4AddrSpec : AddressSpec :=
  {| Key := "ip4"; NetNames := ["ip4"];
     ParseNetAddr := parseIpNetAddr; ConvertMultiaddr := parseBasicNetMaddr |}.

Definition ip6AddrSpec : AddressSpec :=
  {| Key := "ip6"; NetNames := ["ip6"];
     ParseNetAddr := parseIpNetAddr; ConvertMultiaddr := parseBasicNetMaddr |}.

(** Modelled from the spec: the registry ([AddressSpec]'s declaration,
    the two lookup tables, registration and the two getters called by
    [FromNetAddr] and [ToNetAddr]) is not among the sources.  The spec
    (3, 4.1, 4.5) gives it as two tables, one keyed by each [NetNames]
    entry and one keyed by the protocol key; [Register] adds a spec to
    both and fails when a [NetNames] entry or the [Key] is already
    registered; a lookup that finds nothing makes the caller fail with
    the unsupported-network error. *)
Record Registry : Type := mkRegistry {
  addrParsers : gmap string AddressSpec;   (* by network name *)
  maddrParsers : gmap string AddressSpec   (* by protocol key *)
}.

Definition emptyRegistry : Registry :=
  {| addrParsers := ∅; maddrParsers := ∅ |}.

Definition LookupByNetName (reg : Registry) (name : string) : option AddressSpec :=
  addrParsers reg !! name.

Definition LookupByProtocolKey (reg : Registry) (key : string) : option AddressSpec :=
  maddrParsers reg !! key.

Definition Register (reg : Registry) (spec : AddressSpec) : option Registry :=
  if forallb (fun n => bool_decide (addrParsers reg !! n = None)) (NetNames spec)
     && bool_decide (maddrParsers reg !! Key spec = None)
  then Some {| addrParsers :=
                 foldr (fun n t => <[n := spec]> t) (addrParsers reg) (NetNames spec);
               maddrParsers := <[Key spec := spec]> (maddrParsers reg) |}
  else None.

Definition getAddrParser (reg : Registry) (net : string) : result FromNetAddrFunc :=
  match LookupByNetName reg net with
  | Some spec => Ret (ParseNetAddr spec)
  | None => Err (ErrNetworkNotSupported net)
  end.

Definition getMaddrParser (reg : Registry) (name : string) : result ToNetAddrFunc :=
  match LookupByProtocolKey reg name with
  | Some spec => Ret (ConvertMultiaddr spec)
  | None => Err (ErrNetworkNotSupported name)
  end.

(** The registry after start-up: one registration per spec of
    [convert.go]. *)
Definition registered : option Registry :=
  foldl (fun r spec => r ≫= fun reg => Register reg spec) (Some emptyRegistry)
        [tcpAddrSpec; udpAddrSpec; utpAddrSpec; ip4AddrSpec; ip6AddrSpec].

Definition defaultRegistry : Registry := default emptyRegistry registered.

(** [FromNetAddr] (convert.go, 15-25).  A nil interface value is
    [None]. *)
Definition FromNetAddr (reg : Registry) (a : option net.Addr) : result ma.Multiaddr :=
  match a with
  | None => Err ErrNilMultiaddr
  | Some a =>
      p ← getAddrParser reg (net.Network a);
      p a
  end.

(** [ToNetAddr] (convert.go, 30-40). *)
Definition ToNetAddr (reg : Registry) (maddr : ma.Multiaddr) : result net.Addr :=
  let protos := ma.Protocols maddr in
  final ← index protos (len protos - 1);
  p ← getMaddrParser reg (ma.Name final);
  p maddr.

End Collaborators.

End manet.

Definition seg (name : string) (v : option string) : ma.Segment :=
  ma.mkSegment (ma.mkProtocol name) v.

(** ** Vocabulary of the statements *)

(** The eight protocol-name sequences of a thin-waist address. *)
Definition thin_waist_shapes : list (list string) :=
  [ ["ip4"]; ["ip6"];
    ["ip4"; "tcp"]; ["ip6"; "tcp"];
    ["ip4"; "udp"]; ["ip6"; "udp"];
    ["ip4"; "udp"; "utp"]; ["ip6"; "udp"; "utp"] ].

Definition protocol_names (m : ma.Multiaddr) : list string :=
  map ma.Name (ma.Protocols m).

(** The digit appended to the network name, by the IP segment's name. *)
Definition version_suffix (ipn : string) : string :=
  if (ipn =? "ip4")%string then "4" else "6".

(** The host string: [ip:port] for IPv4, [[ip]:port] for IPv6. *)
Definition host_string (ipn ip port : string) : string :=
  if (ipn =? "ip4")%string then ip +:+ ":" +:+ port
  else "[" +:+ ip +:+ "]:" +:+ port.

(** A 16-byte address that carries the IPv4-in-IPv6 prefix. *)
Definition v4_mapped (ip : net.IP) : Prop :=
  length ip = 16%nat /\ take 12 ip = net.v4InV6Prefix.

(** The text of an IP is usable as a multiaddr value: it is not empty and
    does not contain the delimiter. *)
Definition value_text (s : string) : Prop :=
  s <> "" /\ strings.free_of "/" s = true.

Definition tcp_names : list string := ["tcp"; "tcp4"; "tcp6"].
Definition udp_names : list string := ["udp"; "udp4"; "udp6"].
Definition utp_names : list string := ["utp"; "utp4"; "utp6"].
Definition ip_names : list string := ["ip"; "ip4"; "ip6"].

(** Which tag [FromIP] chooses for an IP. *)
Definition ip_family (ipn : string) (ip : net.IP) : Prop :=
  (ipn = "ip4" /\ (length ip = 4%nat \/ v4_mapped ip))
  \/ (ipn = "ip6" /\ length ip = 16%nat /\ ~ v4_mapped ip).

(** [ToNetAddr(FromNetAddr(a))]. *)
Definition round_trip (reg : manet.Registry) (a : net.Addr) : result net.Addr :=
  m ← manet.FromNetAddr reg (Some a);
  manet.ToNetAddr reg m.

(** ** Sample collaborators *)

Module sample.

Definition decimal (b : Byte.byte) : string := fmt.d (Z.of_N (Byte.to_N b)).

Definition hex (hi lo : Byte.byte) : string :=
  HexadecimalString.NilZero.string_of_uint
    (N.to_hex_uint (256 * Byte.to_N hi + Byte.to_N lo)).

Fixpoint groups (p : list Byte.byte) : list string :=
  match p with
  | hi :: lo :: rest => hex hi lo :: groups rest
  | _ => []
  end.

(** Dotted decimal for an IPv4 address, colon-separated groups
    otherwise. *)
Definition IP_String (ip : net.IP) : string :=
  match net.To4 ip with
  | Some p4 => strings.Join (map decimal p4) "."
  | None => strings.Join (groups ip) ":"
  end.

(** A codec that accepts every non-empty text as it is. *)
Definition canon (name text : string) : option string :=
  if (text =? "")%string then None else Some text.

(** Resolvers that answer with a record of the call. *)
Definition ResolveTCPAddr (network host : string) : result net.Addr :=
  Ret (net.OtherAddr ("ResolveTCPAddr " +:+ network) host).
Definition ResolveUDPAddr (network host : string) : result net.Addr :=
  Ret (net.OtherAddr ("ResolveUDPAddr " +:+ network) host).
Definition ResolveIPAddr (network host : string) : result net.Addr :=
  Ret (net.OtherAddr ("ResolveIPAddr " +:+ network) host).
Definition utp_ResolveAddr (network host : string) : result net.Addr :=
  Ret (net.OtherAddr ("utp.ResolveAddr " +:+ network) host).

Definition registry : manet.Registry :=
  manet.defaultRegistry IP_String canon
    ResolveTCPAddr ResolveUDPAddr ResolveIPAddr utp_ResolveAddr.

Definition ip_10_20_30_40 : net.IP := [Byte.x0a; Byte.x14; Byte.x1e; Byte.x28].
Definition ip_mapped : net.IP := net.v4InV6Prefix ++ ip_10_20_30_40.
Definition ip_2001_db8 : net.IP :=
  [Byte.x20; Byte.x01; Byte.x0d; Byte.xb8; Byte.x00; Byte.x01; Byte.x00; Byte.x02;
   Byte.x00; Byte.x03; Byte.x00; Byte.x04; Byte.x00; Byte.x05; Byte.x00; Byte.x06].

End sample.

(** ** Facts about the string helpers *)

Lemma append_nil_l (s : string) : "" +:+ s = s.
Proof. reflexivity. Qed.

Lemma append_cons (c : ascii) (s t : string) : String c s +:+ t = String c (s +:+ t).
Proof. reflexivity. Qed.

Lemma append_empty_r (s : string) : s +:+ "" = s.
Proof.
  induction s as [|c s IH]; [reflexivity|].
  rewrite append_cons, IH. reflexivity.
Qed.

Lemma append_assoc (a b c : string) : (a +:+ b) +:+ c = a +:+ (b +:+ c).
Proof.
  induction a as [|x a IH]; [reflexivity|].
  rewrite !append_cons, IH. reflexivity.
Qed.

Lemma Split_nonempty (s : string) (sep : ascii) : strings.Split s sep <> [].
Proof.
  destruct s as [|c rest]; simpl; [discriminate|].
  destruct (Ascii.eqb c sep); [discriminate|].
  destruct (strings.Split rest sep); discriminate.
Qed.

Lemma Split_len_pos (s : string) (sep : ascii) : (1 <= len (strings.Split s sep))%Z.
Proof.
  pose proof (Split_nonempty s sep) as H. unfold len.
  destruct (strings.Split s sep); [congruence | simpl; lia].
Qed.

(** Splitting distributes over a separator in the middle. *)
Lemma Split_app_sep (a b : string) (sep : ascii) :
  strings.Split (a +:+ String sep b) sep
  = strings.Split a sep ++ strings.Split b sep.
Proof.
  induction a as [|c a IH].
  - rewrite append_nil_l. simpl. rewrite Ascii.eqb_refl. reflexivity.
  - rewrite append_cons. simpl. destruct (Ascii.eqb c sep).
    + rewrite IH. reflexivity.
    + rewrite IH. pose proof (Split_nonempty a sep) as Hne.
      destruct (strings.Split a sep); [congruence | reflexivity].
Qed.

Lemma Split_free (s : string) (sep : ascii) :
  strings.free_of sep s = true -> strings.Split s sep = [s].
Proof.
  induction s as [|c s IH]; simpl; [reflexivity|].
  intros [Hc Hs]%andb_true_iff. apply negb_true_iff in Hc. rewrite Hc.
  rewrite (IH Hs). reflexivity.
Qed.

Lemma concat_empty_cons (x : string) (xs : list string) :
  String.concat "" (x :: xs) = x +:+ String.concat "" xs.
Proof. destruct xs; simpl; [symmetry; apply append_empty_r | reflexivity]. Qed.

(** The text of a multiaddr splits into the pieces of its components. *)
Lemma Split_delimited (comps : list string) :
  strings.Split (String.concat "" (map (fun c => "/" +:+ c) comps)) "/"
  = "" :: flat_map (fun c => strings.Split c "/") comps.
Proof.
  induction comps as [|c cs IH]; [reflexivity|].
  rewrite map_cons, concat_empty_cons.
  destruct cs as [|c2 cs].
  - simpl. rewrite append_empty_r, app_nil_r, append_nil_l. reflexivity.
  - rewrite map_cons, concat_empty_cons in IH |- *.
    repeat (rewrite append_assoc in IH || rewrite append_cons in IH
            || rewrite append_nil_l in IH).
    repeat (rewrite append_assoc || rewrite append_cons || rewrite append_nil_l).
    simpl in IH. injection IH as IH.
    cbn [strings.Split]. rewrite Ascii.eqb_refl. rewrite Split_app_sep, IH.
    reflexivity.
Qed.

Lemma Split_String (m : ma.Multiaddr) :
  strings.Split (ma.String m) "/"
  = "" :: flat_map (fun c => strings.Split c "/") (ma.components m).
Proof. apply Split_delimited. Qed.

Lemma flat_map_Split_free (comps : list string) :
  forallb (strings.free_of "/") comps = true ->
  flat_map (fun c => strings.Split c "/") comps = comps.
Proof.
  induction comps as [|c cs IH]; simpl; [reflexivity|].
  intros [Hc Hcs]%andb_true_iff. rewrite (Split_free _ _ Hc), (IH Hcs). reflexivity.
Qed.

(** ** The thin-waist shapes *)


Lemma isIP_true (p : ma.Protocol) :
  manet.isIP p = true <-> ma.Name p = "ip4" \/ ma.Name p = "ip6".
Proof.
  unfold manet.isIP. rewrite orb_true_iff, !String.eqb_eq. reflexivity.
Qed.

Lemma segment_eta (s : ma.Segment) : s = seg (ma.Name (ma.Proto s)) (ma.Value s).
Proof. destruct s as [[n] v]. reflexivity. Qed.

(** A thin-waist address is an IP segment, alone, or followed by a tcp or
    udp segment, or followed by a udp and a utp segment. *)
Lemma IsThinWaist_inv (m : ma.Multiaddr) :
  manet.IsThinWaist m = true ->
  exists ipn v0, (ipn = "ip4" \/ ipn = "ip6") /\
    (m = [seg ipn v0]
     \/ (exists t v1, (t = "tcp" \/ t = "udp") /\ m = [seg ipn v0; seg t v1])
     \/ (exists v1 v2, m = [seg ipn v0; seg "udp" v1; seg "utp" v2])).
Proof.
  unfold manet.IsThinWaist, manet.isIP, ma.Protocols.
  destruct m as [|[[n0] v0] m]; simpl; [discriminate|].
  destruct ((n0 =? "ip4")%string || (n0 =? "ip6")%string) eqn:Hip; simpl;
    [|discriminate].
  rewrite orb_true_iff, !String.eqb_eq in Hip.
  intros H. exists n0, v0. split; [exact Hip|].
  destruct m as [|[[n1] v1] m]; simpl in H; [left; reflexivity|].
  destruct m as [|[[n2] v2] m]; simpl in H.
  - rewrite orb_true_iff, !String.eqb_eq in H. right; left.
    exists n1, v1. split; [exact H | reflexivity].
  - destruct m as [|s3 m]; simpl in H; [|discriminate].
    rewrite andb_true_iff, !String.eqb_eq in H. destruct H as [-> ->].
    right; right. exists v1, v2. reflexivity.
Qed.

(** C4: [IsThinWaist] is true exactly when the ordered protocol names of
    the address are one of the eight thin-waist sequences, and false for
    every other sequence: for the empty address, for an address that does
    not start with an IP segment (a transport alone), and for an IP segment
    followed by another IP segment.  It is a total function to [bool]. *)
Theorem IsThinWaist_shapes :
  (forall m, manet.IsThinWaist m = true <-> In (protocol_names m) thin_waist_shapes)
  /\ (forall m, manet.IsThinWaist m = false <-> ~ In (protocol_names m) thin_waist_shapes)
  /\ manet.IsThinWaist [] = false
  /\ (forall t v rest, t <> "ip4" -> t <> "ip6" ->
        manet.IsThinWaist (seg t v :: rest) = false)
  /\ (forall a b v w rest, b = "ip4" \/ b = "ip6" ->
        manet.IsThinWaist (seg a v :: seg b w :: rest) = false).
Proof.
  assert (Hiff : forall m,
             manet.IsThinWaist m = true <-> In (protocol_names m) thin_waist_shapes).
  { intros m. split.
    - intros H. apply IsThinWaist_inv in H.
      destruct H as (ipn & v0 & Hip & [-> | [(t & v1 & Ht & ->) | (v1 & v2 & ->)]]);
        unfold protocol_names, thin_waist_shapes; simpl;
        destruct Hip as [-> | ->]; try destruct Ht as [-> | ->]; tauto.
    - unfold protocol_names, thin_waist_shapes, manet.IsThinWaist, manet.isIP.
      generalize (ma.Protocols m) as ps. intros ps Hin. simpl in Hin.
      destruct ps as [|[n0] [|[n1] [|[n2] [|p3 ps]]]]; simpl in *;
        repeat match goal with
               | H : _ \/ _ |- _ => destruct H
               | H : False |- _ => destruct H
               | H : _ :: _ = _ :: _ |- _ => injection H as ?; subst
               | H : [] = _ :: _ |- _ => discriminate H
               | H : _ :: _ = [] |- _ => discriminate H
               end; reflexivity. }
  split; [exact Hiff|]. split; [|split; [reflexivity|split]].
  - intros m. rewrite <- Hiff. destruct (manet.IsThinWaist m); split; congruence.
  - intros t v rest H4 H6. unfold manet.IsThinWaist, manet.isIP. simpl.
    apply String.eqb_neq in H4, H6. rewrite H4, H6. reflexivity.
  - intros a b v w rest Hb. unfold manet.IsThinWaist. simpl.
    destruct (manet.isIP _); [|reflexivity]. simpl.
    destruct rest as [|s2 [|s3 rest]]; simpl; [| |reflexivity];
      destruct Hb as [-> | ->]; reflexivity.
Qed.

(** ** DialArgs *)

Lemma index_not_Err {A : Type} (l : list A) (i : Z) (e : error) : index l i <> Err e.
Proof.
  unfold index. destruct (i <? 0)%Z; [discriminate|].
  destruct (l !! Z.to_nat i); discriminate.
Qed.

Lemma slice_from_not_Err {A : Type} (l : list A) (i : Z) (e : error) :
  slice_from l i <> Err e.
Proof. unfold slice_from. destruct (_ && _); discriminate. Qed.

(** The components of a valid thin-waist address contain no delimiter. *)
Lemma valid_components_free (m : ma.Multiaddr) :
  ma.valid m = true -> manet.IsThinWaist m = true ->
  forallb (strings.free_of "/") (ma.components m) = true.
Proof.
  intros Hv Htw. apply IsThinWaist_inv in Htw.
  destruct Htw as (ipn & v0 & Hip & [-> | [(t & v1 & Ht & ->) | (v1 & v2 & ->)]]);
    destruct Hip as [-> | ->]; try destruct Ht as [-> | ->];
    unfold ma.valid, ma.valid_segment in Hv; simpl in Hv;
    destruct v0 as [v0|]; try discriminate Hv;
    try (destruct v1 as [v1|]; try discriminate Hv; try (rewrite andb_false_r in Hv; discriminate Hv));
    try (destruct v2 as [v2|]);
    simpl; rewrite ?andb_true_r in *; exact Hv.
Qed.

(** On a valid thin-waist address the parts [DialArgs] works on are the
    components of the address. *)
Lemma DialArgs_parts (m : ma.Multiaddr) :
  ma.valid m = true -> manet.IsThinWaist m = true ->
  slice_from (strings.Split (ma.String m) "/") 1 = Ret (ma.components m).
Proof.
  intros Hv Htw. rewrite Split_String.
  rewrite (flat_map_Split_free _ (valid_components_free m Hv Htw)).
  unfold slice_from.
  replace (1 <=? len ("" :: ma.components m))%Z with true; [reflexivity|].
  symmetry. apply Z.leb_le. unfold len. simpl length. lia.
Qed.


Lemma valid_thin_waist_inv (m : ma.Multiaddr) :
  ma.valid m = true -> manet.IsThinWaist m = true ->
  exists ipn ip, (ipn = "ip4" \/ ipn = "ip6") /\
    (m = [seg ipn (Some ip)]
     \/ (exists t port, (t = "tcp" \/ t = "udp")
           /\ m = [seg ipn (Some ip); seg t (Some port)])
     \/ (exists port v, m = [seg ipn (Some ip); seg "udp" (Some port); seg "utp" v])).
Proof.
  intros Hv Htw. apply IsThinWaist_inv in Htw.
  destruct Htw as (ipn & v0 & Hip & Hm). exists ipn.
  assert (exists ip, v0 = Some ip) as [ip ->].
  { destruct v0 as [ip|]; [eauto|]. exfalso.
    destruct Hm as [-> | [(t & v1 & Ht & ->) | (v1 & v2 & ->)]];
      destruct Hip as [-> | ->]; discriminate Hv. }
  exists ip. split; [exact Hip|].
  destruct Hm as [-> | [(t & v1 & Ht & ->) | (v1 & v2 & ->)]]; [left; reflexivity | |].
  - right; left. exists t.
    destruct v1 as [port|]; [exists port; split; [exact Ht | reflexivity]|].
    exfalso. unfold ma.valid, ma.valid_segment in Hv. simpl in Hv.
    destruct Ht as [-> | ->]; simpl in Hv; rewrite andb_false_r in Hv; discriminate Hv.
  - right; right.
    destruct v1 as [port|]; [exists port, v2; reflexivity|].
    exfalso. unfold ma.valid, ma.valid_segment in Hv. simpl in Hv.
    rewrite andb_false_r in Hv; discriminate Hv.
Qed.

(** What [DialArgs] returns on each shape of a valid thin-waist address. *)
Lemma DialArgs_valid_cases (m : ma.Multiaddr) :
  ma.valid m = true -> manet.IsThinWaist m = true ->
  exists ipn ip, (ipn = "ip4" \/ ipn = "ip6") /\
    ((m = [seg ipn (Some ip)]
      /\ slice_from (strings.Split (ma.String m) "/") 1 = Ret [ipn; ip]
      /\ manet.DialArgs m = Ret (ipn, ip))
     \/ (exists t port, (t = "tcp" \/ t = "udp")
           /\ m = [seg ipn (Some ip); seg t (Some port)]
           /\ manet.DialArgs m
              = Ret (t +:+ version_suffix ipn, host_string ipn ip port))
     \/ (exists port v,
           m = [seg ipn (Some ip); seg "udp" (Some port); seg "utp" v]
           /\ manet.DialArgs m
              = Ret ("utp" +:+ version_suffix ipn, host_string ipn ip port))).
Proof.
  intros Hv Htw.
  pose proof (DialArgs_parts m Hv Htw) as Hparts.
  assert (Hd : manet.DialArgs m =
               manet.DialArgs m) by reflexivity.
  unfold manet.DialArgs at 2 in Hd. rewrite Htw, Hparts in Hd. simpl negb in Hd.
  cbv iota in Hd. rewrite Hd. clear Hd.
  destruct (valid_thin_waist_inv m Hv Htw) as (ipn & ip & Hip & Hm).
  exists ipn, ip. split; [exact Hip|].
  destruct Hm as [-> | [(t & port & Ht & ->) | (port & v & ->)]].
  - left. split; [reflexivity|]. split; [exact Hparts|]. reflexivity.
  - right; left. exists t, port. split; [exact Ht|]. split; [reflexivity|].
    destruct Hip as [-> | ->]; destruct Ht as [-> | ->]; reflexivity.
  - right; right. exists port, v. split; [reflexivity|].
    destruct Hip as [-> | ->]; destruct v; reflexivity.
Qed.

(** C2: on every thin-waist address (that the multiaddr library can hold)
    [DialArgs] returns, in the bare-IP case (exactly two components after
    the leading delimiter), the two components as they are, the protocol
    name and the address string; in the transport case (more than two
    components) the network name is the transport name ("utp" for a udp
    segment followed by utp) with "4" or "6" appended by the IP segment's
    name, and the host string is ip:port for ip4 and [ip]:port for ip6. *)
Theorem DialArgs_thin_waist (m : ma.Multiaddr) :
  ma.valid m = true -> manet.IsThinWaist m = true ->
  exists parts ipn ip,
    slice_from (strings.Split (ma.String m) "/") 1 = Ret parts
    /\ (ipn = "ip4" \/ ipn = "ip6")
    /\ ((length parts = 2%nat
         /\ parts = [ipn; ip]
         /\ manet.DialArgs m = Ret (ipn, ip))
        \/ (length parts <> 2%nat
            /\ exists t port, (t = "tcp" \/ t = "udp")
                 /\ parts = [ipn; ip; t; port]
                 /\ manet.DialArgs m
                    = Ret (t +:+ version_suffix ipn, host_string ipn ip port))
        \/ (length parts <> 2%nat
            /\ exists port rest,
                 parts = ipn :: ip :: "udp" :: port :: "utp" :: rest
                 /\ manet.DialArgs m
                    = Ret ("utp" +:+ version_suffix ipn, host_string ipn ip port))).
Proof.
  intros Hv Htw. exists (ma.components m).
  pose proof (DialArgs_parts m Hv Htw) as Hparts.
  destruct (DialArgs_valid_cases m Hv Htw)
    as (ipn & ip & Hip & [(Hm & _ & H) | [(t & port & Ht & Hm & H) | (port & v & Hm & H)]]).
  - exists ipn, ip. split; [exact Hparts|]. split; [exact Hip|].
    left. rewrite H. subst m. simpl. repeat split.
  - exists ipn, ip. split; [exact Hparts|]. split; [exact Hip|].
    right; left. rewrite H. subst m. simpl. split; [lia|].
    exists t, port. repeat split. exact Ht.
  - exists ipn, ip. split; [exact Hparts|]. split; [exact Hip|].
    right; right. rewrite H. subst m. simpl. split; [destruct v; simpl; lia|].
    exists port, (match v with Some x => [x] | None => [] end).
    split; [destruct v|]; reflexivity.
Qed.

(** Past its guard, [DialArgs] has no error return. *)
Lemma DialArgs_thin_waist_not_Err (m : ma.Multiaddr) (e : error) :
  manet.IsThinWaist m = true -> manet.DialArgs m <> Err e.
Proof.
  intros Htw. unfold manet.DialArgs. rewrite Htw. simpl negb. cbv iota.
  destruct (slice_from (strings.Split (ma.String m) "/") 1) as [parts|e'|p] eqn:Hs;
    [| exfalso; exact (slice_from_not_Err _ _ _ Hs) | discriminate].
  unfold mbind, result_bind.
  repeat match goal with
         | |- context [index ?l ?i] =>
             let H := fresh "H" in
             destruct (index l i) eqn:H;
             [| exfalso; exact (index_not_Err _ _ _ H) | discriminate]
         | |- context [if ?b then _ else _] => destruct b
         end; discriminate.
Qed.

(** C1: [DialArgs] returns an error if and only if [IsThinWaist] is false;
    the error it returns is the not-thin-waist error (made from the text of
    the address); and when [IsThinWaist] is true, on an address the
    multiaddr library can hold, it returns a (network, host) pair with no
    error. *)
Theorem DialArgs_fails_iff_not_thin_waist (m : ma.Multiaddr) :
  ((exists e, manet.DialArgs m = Err e) <-> manet.IsThinWaist m = false)
  /\ (forall e, manet.DialArgs m = Err e -> e = ErrNotThinWaist (ma.String m))
  /\ (ma.valid m = true -> manet.IsThinWaist m = true ->
      exists network host, manet.DialArgs m = Ret (network, host)).
Proof.
  assert (Hguard : manet.IsThinWaist m = false ->
                   manet.DialArgs m = Err (ErrNotThinWaist (ma.String m))).
  { intros Htw. unfold manet.DialArgs. rewrite Htw. reflexivity. }
  split; [split|split].
  - intros [e He]. destruct (manet.IsThinWaist m) eqn:Htw; [|reflexivity].
    exfalso. exact (DialArgs_thin_waist_not_Err m e Htw He).
  - intros Htw. eexists. exact (Hguard Htw).
  - intros e He. destruct (manet.IsThinWaist m) eqn:Htw.
    + exfalso. exact (DialArgs_thin_waist_not_Err m e Htw He).
    + rewrite (Hguard eq_refl) in He. congruence.
  - intros Hv Htw.
    destruct (DialArgs_valid_cases m Hv Htw)
      as (ipn & ip & _ & [(_ & _ & H) | [(t & port & _ & _ & H) | (port & v & _ & H)]]);
      rewrite H; eauto.
Qed.

(** The first part of the text of a thin-waist address is its IP
    segment's name, whatever the values are. *)
Lemma thin_waist_first_part (m : ma.Multiaddr) (parts : list string) :
  manet.IsThinWaist m = true ->
  slice_from (strings.Split (ma.String m) "/") 1 = Ret parts ->
  exists ipn rest, (ipn = "ip4" \/ ipn = "ip6") /\ parts = ipn :: rest.
Proof.
  intros Htw. rewrite Split_String.
  apply IsThinWaist_inv in Htw. destruct Htw as (ipn & v0 & Hip & Hm).
  assert (Hc : exists cs, ma.components m = ipn :: cs).
  { destruct Hm as [-> | [(t & v1 & Ht & ->) | (v1 & v2 & ->)]]; simpl; eauto. }
  destruct Hc as [cs ->]. unfold slice_from.
  replace (1 <=? len _)%Z with true
    by (symmetry; apply Z.leb_le; unfold len; simpl length; lia).
  simpl. intros [= <-]. exists ipn. destruct Hip as [-> | ->]; simpl; eauto.
Qed.

(** C3: when the third component of the text is "udp" and a fifth
    component exists and is "utp", the network name [DialArgs] returns is
    "utp", not "udp", followed by the version digit; the host string is
    built from the second and fourth components as usual.  In particular
    /ip4/1.2.3.4/udp/9/utp gives ("utp4", "1.2.3.4:9"). *)
Theorem DialArgs_utp_override :
  (forall (m : ma.Multiaddr) (parts : list string),
     manet.IsThinWaist m = true ->
     slice_from (strings.Split (ma.String m) "/") 1 = Ret parts ->
     parts !! 2%nat = Some "udp" ->
     parts !! 4%nat = Some "utp" ->
     exists ipn ip port,
       parts !! 0%nat = Some ipn /\ (ipn = "ip4" \/ ipn = "ip6")
       /\ parts !! 1%nat = Some ip /\ parts !! 3%nat = Some port
       /\ manet.DialArgs m
          = Ret ("utp" +:+ version_suffix ipn, host_string ipn ip port))
  /\ ma.String [seg "ip4" (Some "1.2.3.4"); seg "udp" (Some "9"); seg "utp" None]
     = "/ip4/1.2.3.4/udp/9/utp"
  /\ manet.DialArgs [seg "ip4" (Some "1.2.3.4"); seg "udp" (Some "9"); seg "utp" None]
     = Ret ("utp4", "1.2.3.4:9").
Proof.
  split; [|split; reflexivity].
  intros m parts Htw Hparts H2 H4.
  destruct (thin_waist_first_part m parts Htw Hparts) as (ipn & rest & Hip & ->).
  destruct rest as [|ip [|p2 [|port [|p4 rest]]]]; try discriminate.
  simpl in H2, H4. injection H2 as ->. injection H4 as ->.
  exists ipn, ip, port. repeat split; try assumption.
  unfold manet.DialArgs. rewrite Htw, Hparts. simpl negb. cbv iota.
  unfold mbind, result_bind.
  replace (len _ =? 2)%Z with false
    by (symmetry; apply Z.eqb_neq; unfold len; simpl length; lia).
  replace (len _ >? 4)%Z with true
    by (symmetry; apply Z.gtb_lt; unfold len; simpl length; lia).
  destruct Hip as [-> | ->]; reflexivity.
Qed.

(** ** FromIP *)


Lemma TrimRight_free (s : string) (c : ascii) :
  strings.free_of c s = true -> strings.TrimRight s c = s.
Proof.
  induction s as [|a s IH]; simpl; [reflexivity|].
  intros [Ha Hs]%andb_true_iff. apply negb_true_iff in Ha.
  rewrite (IH Hs), Ha. destruct s; reflexivity.
Qed.

Lemma TrimRight_app_free (p s : string) (c : ascii) :
  strings.free_of c s = true -> s <> "" ->
  strings.TrimRight (p +:+ s) c = p +:+ s.
Proof.
  intros Hs Hne. induction p as [|a p IH].
  - rewrite append_nil_l. apply TrimRight_free, Hs.
  - rewrite append_cons. simpl. rewrite IH.
    destruct (p +:+ s) eqn:E; [|reflexivity].
    exfalso. destruct p; [rewrite append_nil_l in E; congruence | discriminate E].
Qed.

(** What the parser makes of one protocol name followed by one value. *)
Lemma NewMultiaddr_name_value (canon : string -> string -> option string)
      (name text v : string) :
  strings.free_of "/" name = true ->
  strings.free_of "/" text = true -> text <> "" ->
  ma.carries_value name = Some true ->
  canon name text = Some v ->
  ma.NewMultiaddr canon ("/" +:+ name +:+ "/" +:+ text) = Ret [seg name (Some v)].
Proof.
  intros Hn Ht Hne Hcv Hc. unfold ma.NewMultiaddr.
  replace ("/" +:+ name +:+ "/" +:+ text) with (("/" +:+ name +:+ "/") +:+ text)
    by (rewrite !append_assoc; reflexivity).
  rewrite (TrimRight_app_free _ _ _ Ht Hne).
  rewrite !append_assoc, append_cons, append_nil_l.
  cbn [strings.Split]. rewrite Ascii.eqb_refl.
  rewrite append_cons, append_nil_l, Split_app_sep.
  rewrite (Split_free _ _ Hn), (Split_free _ _ Ht).
  simpl. rewrite Hcv, Hc. reflexivity.
Qed.

Lemma To16_None (ip : net.IP) :
  net.To16 ip = None <-> length ip <> 4%nat /\ length ip <> 16%nat.
Proof.
  unfold net.To16, net.IPv4len, net.IPv6len.
  destruct (Nat.eqb_spec (length ip) 4); [split; [discriminate | lia]|].
  destruct (Nat.eqb_spec (length ip) 16); [split; [discriminate | lia]|].
  tauto.
Qed.

Lemma isZeros_replicate (p : list Byte.byte) :
  net.isZeros p = true <-> p = replicate (length p) Byte.x00.
Proof.
  induction p as [|b p IH]; simpl; [tauto|].
  rewrite andb_true_iff, IH. split.
  - intros [Hb ->]. apply Byte.byte_dec_bl in Hb. subst b.
    rewrite length_replicate. reflexivity.
  - intros [= -> Hp]. split; [reflexivity | exact Hp].
Qed.

Lemma To4_Some (ip : net.IP) :
  net.To4 ip <> None <-> length ip = 4%nat \/ v4_mapped ip.
Proof.
  unfold net.To4, v4_mapped, net.IPv4len, net.IPv6len, net.v4InV6Prefix.
  destruct (Nat.eqb_spec (length ip) 4) as [H4|H4]; [split; [tauto | discriminate]|].
  destruct (Nat.eqb_spec (length ip) 16) as [H16|H16]; simpl;
    [|split; [congruence | intros [? | [? _]]; congruence]].
  do 16 (destruct ip as [|? ip]; [discriminate H16|]).
  destruct ip; [|discriminate H16]. cbn [take lookup list_lookup from_option].
  split.
  - intros Hne. right. split; [reflexivity|].
    destruct (net.isZeros _ && _ && _) eqn:E; [|congruence].
    apply andb_true_iff in E as [E E12]. apply andb_true_iff in E as [E E11].
    apply Byte.byte_dec_bl in E11, E12. subst.
    apply isZeros_replicate in E. simpl in E. injection E as -> -> -> -> -> -> -> -> -> ->.
    reflexivity.
  - intros [Hl | [_ Hpre]]; [simpl in Hl; lia|].
    simpl in Hpre. injection Hpre as -> -> -> -> -> -> -> -> -> -> -> ->.
    simpl. discriminate.
Qed.


(** C6: [FromIP] fails with the incorrect-conversion error when the IP has
    neither 4 nor 16 bytes.  Otherwise, the multiaddr library accepting the
    printed IP, it yields an address of a single segment: tagged "ip4" for
    a 4-byte IP and for a 16-byte IP that carries the IPv4-in-IPv6 prefix
    (the 4-byte form is preferred), tagged "ip6" for every other 16-byte
    IP. *)
Theorem FromIP_cases (IP_String : net.IP -> string)
        (canon : string -> string -> option string) (ip : net.IP) :
  (length ip <> 4%nat -> length ip <> 16%nat ->
   manet.FromIP IP_String canon ip = Err ErrIncorrectNetAddr)
  /\ (forall v, length ip = 4%nat \/ v4_mapped ip ->
        value_text (IP_String ip) -> canon "ip4" (IP_String ip) = Some v ->
        manet.FromIP IP_String canon ip = Ret [seg "ip4" (Some v)])
  /\ (forall v, length ip = 16%nat -> ~ v4_mapped ip ->
        value_text (IP_String ip) -> canon "ip6" (IP_String ip) = Some v ->
        manet.FromIP IP_String canon ip = Ret [seg "ip6" (Some v)]).
Proof.
  unfold manet.FromIP. split; [|split].
  - intros H4 H16.
    rewrite bool_decide_eq_false_2
      by (rewrite To4_Some; unfold v4_mapped; intros [? | [? _]]; congruence).
    rewrite bool_decide_eq_false_2; [reflexivity|].
    intros Hne. apply Hne, To16_None. split; assumption.
  - intros v Hip [Hne Hfree] Hc.
    rewrite bool_decide_eq_true_2 by (apply To4_Some, Hip).
    apply (NewMultiaddr_name_value canon "ip4"); auto.
  - intros v H16 Hnm [Hne Hfree] Hc.
    rewrite bool_decide_eq_false_2
      by (rewrite To4_Some; intros [? | ?]; [congruence | tauto]).
    rewrite bool_decide_eq_true_2
      by (intros HN; apply To16_None in HN; tauto).
    apply (NewMultiaddr_name_value canon "ip6"); auto.
Qed.

(** ** The dispatch facade *)

(** C7: [FromNetAddr] of a nil address fails with the nil error, for every
    registry (so whatever its converters would do, none decides the
    result); of an address whose network name has no registered spec it
    fails with the unsupported-network error; otherwise its result is that
    of the looked-up spec's [ParseNetAddr] applied to the address. *)
Theorem FromNetAddr_dispatch (reg : manet.Registry) :
  manet.FromNetAddr reg None = Err ErrNilMultiaddr
  /\ (forall a, manet.LookupByNetName reg (net.Network a) = None ->
        manet.FromNetAddr reg (Some a) = Err (ErrNetworkNotSupported (net.Network a)))
  /\ (forall a spec, manet.LookupByNetName reg (net.Network a) = Some spec ->
        manet.FromNetAddr reg (Some a) = manet.ParseNetAddr spec a).
Proof.
  split; [reflexivity|]. split.
  - intros a H. unfold manet.FromNetAddr, manet.getAddrParser. rewrite H. reflexivity.
  - intros a spec H. unfold manet.FromNetAddr, manet.getAddrParser. rewrite H. reflexivity.
Qed.

Lemma index_last {A : Type} (l : list A) (x : A) :
  last l = Some x -> index l (len l - 1) = Ret x.
Proof.
  intros H. unfold index, len.
  assert (Hlen : (0 < length l)%nat).
  { destruct l; [discriminate H | simpl; lia]. }
  replace (Z.of_nat (length l) - 1 <? 0)%Z with false
    by (symmetry; apply Z.ltb_ge; lia).
  replace (Z.to_nat (Z.of_nat (length l) - 1)) with (Nat.pred (length l)) by lia.
  rewrite <- last_lookup, H. reflexivity.
Qed.

Lemma ToNetAddr_last (reg : manet.Registry) (maddr : ma.Multiaddr) (final : ma.Protocol) :
  last (ma.Protocols maddr) = Some final ->
  manet.ToNetAddr reg maddr
  = (p ← manet.getMaddrParser reg (ma.Name final); p maddr).
Proof.
  intros H. unfold manet.ToNetAddr. rewrite (index_last _ _ H). reflexivity.
Qed.

(** C8: on an address with a non-empty protocol list, [ToNetAddr] looks up
    the name of the last protocol: with no spec under that key it fails
    with the unsupported-network error, otherwise its result is that of the
    spec's [ConvertMultiaddr] applied to the whole address.  With the specs
    of [convert.go] registered, an address that ends in a utp segment goes
    to the utp spec's converter, although it holds ip and udp segments
    too. *)
Theorem ToNetAddr_dispatch :
  (forall (reg : manet.Registry) (maddr : ma.Multiaddr) (final : ma.Protocol),
     last (ma.Protocols maddr) = Some final ->
     (manet.LookupByProtocolKey reg (ma.Name final) = None ->
      manet.ToNetAddr reg maddr = Err (ErrNetworkNotSupported (ma.Name final)))
     /\ (forall spec, manet.LookupByProtocolKey reg (ma.Name final) = Some spec ->
           manet.ToNetAddr reg maddr = manet.ConvertMultiaddr spec maddr))
  /\ (forall IP_String canon rtcp rudp rip rutp ipn v0 v1 v2,
        let reg := manet.defaultRegistry IP_String canon rtcp rudp rip rutp in
        let utp := manet.utpAddrSpec IP_String canon rtcp rudp rip rutp in
        let maddr := [seg ipn v0; seg "udp" v1; seg "utp" v2] in
        manet.LookupByProtocolKey reg "utp" = Some utp
        /\ manet.ToNetAddr reg maddr = manet.ConvertMultiaddr utp maddr).
Proof.
  split.
  - intros reg maddr final Hlast. rewrite (ToNetAddr_last _ _ _ Hlast).
    unfold manet.getMaddrParser. split.
    + intros ->. reflexivity.
    + intros spec ->. reflexivity.
  - intros IP_String canon rtcp rudp rip rutp ipn v0 v1 v2 reg utp maddr.
    assert (Hl : manet.LookupByProtocolKey reg "utp" = Some utp) by (vm_compute; reflexivity).
    split; [exact Hl|].
    rewrite (ToNetAddr_last reg maddr (ma.mkProtocol "utp") eq_refl).
    unfold manet.getMaddrParser. simpl ma.Name. rewrite Hl. reflexivity.
Qed.

(** C10: on an address whose protocol list is empty, [ToNetAddr] does not
    return an error: the index expression [protos[len(protos)-1]] is out
    of range (index -1, length 0) and the call panics. *)
Theorem ToNetAddr_empty_panics (reg : manet.Registry) (maddr : ma.Multiaddr) :
  ma.Protocols maddr = [] ->
  manet.ToNetAddr reg maddr = Panics (IndexOutOfRange (-1) 0).
Proof. intros H. unfold manet.ToNetAddr. rewrite H. reflexivity. Qed.

(** ** The shared converter *)


Lemma DialArgs_valid_network (m : ma.Multiaddr) (network host : string) :
  ma.valid m = true -> manet.DialArgs m = Ret (network, host) ->
  In network ["ip4"; "ip6"; "tcp4"; "tcp6"; "udp4"; "udp6"; "utp4"; "utp6"].
Proof.
  intros Hv Hd.
  assert (Htw : manet.IsThinWaist m = true).
  { destruct (manet.IsThinWaist m) eqn:E; [reflexivity|].
    unfold manet.DialArgs in Hd. rewrite E in Hd. discriminate Hd. }
  destruct (DialArgs_valid_cases m Hv Htw)
    as (ipn & ip & Hip & [(_ & _ & H) | [(t & port & Ht & _ & H) | (port & v & _ & H)]]);
    rewrite H in Hd; injection Hd as <- _;
    destruct Hip as [-> | ->]; try destruct Ht as [-> | ->]; simpl; tauto.
Qed.

Lemma eqb_names3 (s a b c : string) :
  (s =? a)%string || (s =? b)%string || (s =? c)%string = true <-> In s [a; b; c].
Proof.
  rewrite !orb_true_iff, !String.eqb_eq. simpl. intuition congruence.
Qed.

(** C9: [parseBasicNetMaddr] returns the error of [DialArgs] when there is
    one.  Otherwise it passes the (network, host) pair to one resolver and
    returns what the resolver returns: the TCP resolver for the tcp names,
    the UDP resolver for the udp names, the utp resolver for the utp names,
    the IP resolver for the ip names; a network that is none of these names
    gives the unsupported-network error.  On every address the multiaddr
    library can hold, the name that [DialArgs] returns is decided by its
    prefix alone: tcp, udp, utp or ip. *)
Theorem parseBasicNetMaddr_dispatch
        (ResolveTCPAddr ResolveUDPAddr ResolveIPAddr utp_ResolveAddr :
           string -> string -> result net.Addr)
        (maddr : ma.Multiaddr) :
  let parse :=
    manet.parseBasicNetMaddr ResolveTCPAddr ResolveUDPAddr ResolveIPAddr utp_ResolveAddr in
  (forall e, manet.DialArgs maddr = Err e -> parse maddr = Err e)
  /\ (forall network host, manet.DialArgs maddr = Ret (network, host) ->
        (In network tcp_names -> parse maddr = ResolveTCPAddr network host)
        /\ (In network udp_names -> parse maddr = ResolveUDPAddr network host)
        /\ (In network utp_names -> parse maddr = utp_ResolveAddr network host)
        /\ (In network ip_names -> parse maddr = ResolveIPAddr network host)
        /\ (~ In network (tcp_names ++ udp_names ++ utp_names ++ ip_names) ->
            parse maddr = Err (ErrNetworkNotSupported network)))
  /\ (ma.valid maddr = true ->
      forall network host, manet.DialArgs maddr = Ret (network, host) ->
        (String.prefix "tcp" network = true -> parse maddr = ResolveTCPAddr network host)
        /\ (String.prefix "udp" network = true -> parse maddr = ResolveUDPAddr network host)
        /\ (String.prefix "utp" network = true -> parse maddr = utp_ResolveAddr network host)
        /\ (String.prefix "ip" network = true -> parse maddr = ResolveIPAddr network host)
        /\ (String.prefix "tcp" network = false -> String.prefix "udp" network = false ->
            String.prefix "utp" network = false -> String.prefix "ip" network = false ->
            parse maddr = Err (ErrNetworkNotSupported network))).
Proof.
  intros parse. subst parse. unfold manet.parseBasicNetMaddr.
  split; [|split].
  - intros e ->. reflexivity.
  - intros network host ->. cbn [mbind result_bind].
    unfold tcp_names, udp_names, utp_names, ip_names.
    repeat split; intros H.
    1-4: simpl in H; repeat (destruct H as [<- | H]; [reflexivity|]); destruct H.
    repeat match goal with
           | |- context [String.eqb network ?n] =>
               destruct (String.eqb_spec network n) as [-> | _];
               [exfalso; apply H; simpl; tauto|]
           end.
    reflexivity.
  - intros Hv network host Hd.
    pose proof (DialArgs_valid_network maddr network host Hv Hd) as Hin.
    rewrite Hd. cbn [mbind result_bind]. simpl in Hin.
    destruct Hin as [<- | [<- | [<- | [<- | [<- | [<- | [<- | [<- | []]]]]]]]];
      repeat split; intros; try reflexivity; discriminate.
Qed.

(** ** The registry after start-up, and the round trip *)

Section DefaultRegistry.

Variable IP_String : net.IP -> string.
Variable canon : string -> string -> option string.
Variables ResolveTCPAddr ResolveUDPAddr ResolveIPAddr utp_ResolveAddr :
  string -> string -> result net.Addr.

Let reg : manet.Registry :=
  manet.defaultRegistry IP_String canon
    ResolveTCPAddr ResolveUDPAddr ResolveIPAddr utp_ResolveAddr.
Let tcp := manet.tcpAddrSpec IP_String canon
    ResolveTCPAddr ResolveUDPAddr ResolveIPAddr utp_ResolveAddr.
Let udp := manet.udpAddrSpec IP_String canon
    ResolveTCPAddr ResolveUDPAddr ResolveIPAddr utp_ResolveAddr.
Let utp := manet.utpAddrSpec IP_String canon
    ResolveTCPAddr ResolveUDPAddr ResolveIPAddr utp_ResolveAddr.
Let ip4 := manet.ip4AddrSpec IP_String canon
    ResolveTCPAddr ResolveUDPAddr ResolveIPAddr utp_ResolveAddr.
Let ip6 := manet.ip6AddrSpec IP_String canon
    ResolveTCPAddr ResolveUDPAddr ResolveIPAddr utp_ResolveAddr.

(** Every registration at start-up succeeds. *)
Lemma registered_default :
  manet.registered IP_String canon
    ResolveTCPAddr ResolveUDPAddr ResolveIPAddr utp_ResolveAddr = Some reg.
Proof. vm_compute. reflexivity. Qed.

Lemma addrParsers_default :
  manet.addrParsers reg
  = <["ip6" := ip6]> (<["ip4" := ip4]>
     (<["utp" := utp]> (<["utp4" := utp]> (<["utp6" := utp]>
     (<["udp" := udp]> (<["udp4" := udp]> (<["udp6" := udp]>
     (<["tcp" := tcp]> (<["tcp4" := tcp]> (<["tcp6" := tcp]> ∅)))))))))).
Proof. vm_compute. reflexivity. Qed.

Lemma maddrParsers_default :
  manet.maddrParsers reg
  = <["ip6" := ip6]> (<["ip4" := ip4]> (<["utp" := utp]>
     (<["udp" := udp]> (<["tcp" := tcp]> ∅)))).
Proof. vm_compute. reflexivity. Qed.

(** The network names [FromNetAddr] answers for are those listed in the
    five specs: the name "ip" is not among them. *)
Lemma LookupByNetName_default (name : string) :
  is_Some (manet.LookupByNetName reg name)
  <-> In name (tcp_names ++ udp_names ++ utp_names ++ ["ip4"; "ip6"]).
Proof.
  unfold manet.LookupByNetName. rewrite addrParsers_default.
  unfold tcp_names, udp_names, utp_names. simpl. split.
  - intros [spec H].
    repeat match type of H with
           | <[?k := _]> _ !! _ = Some _ =>
               let Hne := fresh "Hne" in
               destruct (decide (k = name)) as [<- | Hne];
               [clear; repeat (first [left; reflexivity | right])
               | rewrite lookup_insert_ne in H by exact Hne]
           end.
    rewrite lookup_empty in H. discriminate H.
  - intros H.
    repeat (destruct H as [<- | H]; [vm_compute; eauto|]). destruct H.
Qed.

Lemma fmt_d_value_text (n : Z) : value_text (fmt.d n).
Proof.
  assert (Hu : forall d, strings.free_of "/" (DecimalString.NilEmpty.string_of_uint d) = true).
  { induction d; simpl; auto. }
  assert (Hz : forall d, value_text (DecimalString.NilZero.string_of_uint d)).
  { intros d. split.
    - destruct d; discriminate.
    - destruct d; try reflexivity; apply (Hu (_ d)). }
  unfold fmt.d, DecimalString.NilZero.string_of_int.
  destruct (Z.to_int n) as [d | d]; [apply Hz|].
  split; [discriminate|]. simpl. apply Hz.
Qed.

Lemma NewMultiaddr_udp_utp (text p : string) :
  value_text text -> canon "udp" text = Some p ->
  ma.NewMultiaddr canon ("/udp/" +:+ text +:+ "/utp")
  = Ret [seg "udp" (Some p); seg "utp" None].
Proof.
  intros [Hne Hfree] Hc. unfold ma.NewMultiaddr.
  replace ("/udp/" +:+ text +:+ "/utp") with (("/udp/" +:+ text +:+ "/") +:+ "utp")
    by (rewrite !append_assoc; reflexivity).
  rewrite TrimRight_app_free by (reflexivity || discriminate).
  rewrite !append_assoc.
  change ("/udp/" +:+ text +:+ "/" +:+ "utp")
    with (String "/" ("udp" +:+ String "/" (text +:+ String "/" "utp"))).
  cbn [strings.Split]. rewrite Ascii.eqb_refl.
  rewrite !Split_app_sep, (Split_free _ _ Hfree).
  simpl. rewrite Hc. reflexivity.
Qed.

Lemma DialArgs_transport (ipn ip t port : string) :
  ipn = "ip4" \/ ipn = "ip6" -> t = "tcp" \/ t = "udp" ->
  strings.free_of "/" ip = true -> strings.free_of "/" port = true ->
  manet.DialArgs [seg ipn (Some ip); seg t (Some port)]
  = Ret (t +:+ version_suffix ipn, host_string ipn ip port).
Proof.
  intros Hip Ht Hi Hp.
  set (m := [seg ipn (Some ip); seg t (Some port)]).
  assert (Hv : ma.valid m = true).
  { unfold ma.valid, ma.valid_segment. simpl. rewrite Hi, Hp. reflexivity. }
  assert (Htw : manet.IsThinWaist m = true).
  { destruct Hip as [-> | ->]; destruct Ht as [-> | ->]; reflexivity. }
  destruct (DialArgs_valid_cases m Hv Htw)
    as (ipn' & ip' & _ & [(Hm & _) | [(t' & port' & _ & Hm & H) | (port' & v & Hm & _)]]);
    try discriminate Hm.
  injection Hm as -> -> -> ->. exact H.
Qed.

Lemma DialArgs_utp (ipn ip port : string) :
  ipn = "ip4" \/ ipn = "ip6" ->
  strings.free_of "/" ip = true -> strings.free_of "/" port = true ->
  manet.DialArgs [seg ipn (Some ip); seg "udp" (Some port); seg "utp" None]
  = Ret ("utp" +:+ version_suffix ipn, host_string ipn ip port).
Proof.
  intros Hip Hi Hp.
  set (m := [seg ipn (Some ip); seg "udp" (Some port); seg "utp" None]).
  assert (Hv : ma.valid m = true).
  { unfold ma.valid, ma.valid_segment. simpl. rewrite Hi, Hp. reflexivity. }
  assert (Htw : manet.IsThinWaist m = true).
  { destruct Hip as [-> | ->]; reflexivity. }
  destruct (DialArgs_valid_cases m Hv Htw)
    as (ipn' & ip' & _ & [(Hm & _) | [(t' & port' & _ & Hm & _) | (port' & v & Hm & H)]]);
    try discriminate Hm.
  injection Hm as -> -> -> <-. exact H.
Qed.

(** X14: the round trip of a TCP address ends in the TCP resolver, called
    with the versioned network name and the host string of the address. *)
Lemma round_trip_TCPAddr (ip : net.IP) (port : Z) (zone ipn v p : string) :
  ipn = "ip4" \/ ipn = "ip6" ->
  manet.FromIP IP_String canon ip = Ret [seg ipn (Some v)] ->
  canon "tcp" (fmt.d port) = Some p ->
  strings.free_of "/" v = true -> strings.free_of "/" p = true ->
  round_trip reg (net.TCPAddr ip port zone)
  = ResolveTCPAddr ("tcp" +:+ version_suffix ipn) (host_string ipn v p).
Proof.
  intros Hip Hfrom Hc Hv Hp. unfold round_trip, manet.FromNetAddr, manet.getAddrParser.
  replace (manet.LookupByNetName reg (net.Network (net.TCPAddr ip port zone)))
    with (Some tcp) by (vm_compute; reflexivity).
  cbn [mbind result_bind]. simpl manet.ParseNetAddr. unfold manet.parseTcpNetAddr.
  rewrite Hfrom. cbn [manet.or_incorrect mbind result_bind].
  pose proof (fmt_d_value_text port) as [Hne Hfree].
  change ("/tcp/" +:+ fmt.d port) with ("/" +:+ "tcp" +:+ "/" +:+ fmt.d port).
  rewrite (NewMultiaddr_name_value canon "tcp" (fmt.d port) p) by (reflexivity || assumption).
  cbn [manet.or_incorrect mbind result_bind ma.Encapsulate app].
  rewrite (ToNetAddr_last reg [seg ipn (Some v); seg "tcp" (Some p)]
             (ma.mkProtocol "tcp") eq_refl).
  unfold manet.getMaddrParser.
  replace (manet.LookupByProtocolKey reg (ma.Name (ma.mkProtocol "tcp")))
    with (Some tcp) by (vm_compute; reflexivity).
  cbn [mbind result_bind]. simpl manet.ConvertMultiaddr. unfold manet.parseBasicNetMaddr.
  rewrite (DialArgs_transport ipn v "tcp" p) by auto.
  destruct Hip as [-> | ->]; reflexivity.
Qed.

(** X15: the round trip of a UDP address ends in the UDP resolver, called
    with the versioned network name and the host string of the address. *)
Lemma round_trip_UDPAddr (ip : net.IP) (port : Z) (zone ipn v p : string) :
  ipn = "ip4" \/ ipn = "ip6" ->
  manet.FromIP IP_String canon ip = Ret [seg ipn (Some v)] ->
  canon "udp" (fmt.d port) = Some p ->
  strings.free_of "/" v = true -> strings.free_of "/" p = true ->
  round_trip reg (net.UDPAddr ip port zone)
  = ResolveUDPAddr ("udp" +:+ version_suffix ipn) (host_string ipn v p).
Proof.
  intros Hip Hfrom Hc Hv Hp. unfold round_trip, manet.FromNetAddr, manet.getAddrParser.
  replace (manet.LookupByNetName reg (net.Network (net.UDPAddr ip port zone)))
    with (Some udp) by (vm_compute; reflexivity).
  cbn [mbind result_bind]. simpl manet.ParseNetAddr. unfold manet.parseUdpNetAddr.
  rewrite Hfrom. cbn [manet.or_incorrect mbind result_bind].
  pose proof (fmt_d_value_text port) as [Hne Hfree].
  change ("/udp/" +:+ fmt.d port) with ("/" +:+ "udp" +:+ "/" +:+ fmt.d port).
  rewrite (NewMultiaddr_name_value canon "udp" (fmt.d port) p) by (reflexivity || assumption).
  cbn [manet.or_incorrect mbind result_bind ma.Encapsulate app].
  rewrite (ToNetAddr_last reg [seg ipn (Some v); seg "udp" (Some p)]
             (ma.mkProtocol "udp") eq_refl).
  unfold manet.getMaddrParser.
  replace (manet.LookupByProtocolKey reg (ma.Name (ma.mkProtocol "udp")))
    with (Some udp) by (vm_compute; reflexivity).
  cbn [mbind result_bind]. simpl manet.ConvertMultiaddr. unfold manet.parseBasicNetMaddr.
  rewrite (DialArgs_transport ipn v "udp" p) by auto.
  destruct Hip as [-> | ->]; reflexivity.
Qed.

(** X16: the round trip of a utp address wrapping a UDP address ends in
    the utp resolver, with the IP and port of the wrapped address. *)
Lemma round_trip_utp_Addr (ip : net.IP) (port : Z) (zone ipn v p : string) :
  ipn = "ip4" \/ ipn = "ip6" ->
  manet.FromIP IP_String canon ip = Ret [seg ipn (Some v)] ->
  canon "udp" (fmt.d port) = Some p ->
  strings.free_of "/" v = true -> strings.free_of "/" p = true ->
  round_trip reg (net.utp_Addr "utp" (net.UDPAddr ip port zone))
  = utp_ResolveAddr ("utp" +:+ version_suffix ipn) (host_string ipn v p).
Proof.
  intros Hip Hfrom Hc Hv Hp. unfold round_trip, manet.FromNetAddr, manet.getAddrParser.
  replace (manet.LookupByNetName reg
             (net.Network (net.utp_Addr "utp" (net.UDPAddr ip port zone))))
    with (Some utp) by (vm_compute; reflexivity).
  cbn [mbind result_bind]. simpl manet.ParseNetAddr. unfold manet.parseUtpNetAddr.
  rewrite Hfrom. cbn [manet.or_incorrect mbind result_bind].
  rewrite (NewMultiaddr_udp_utp (fmt.d port) p (fmt_d_value_text port) Hc).
  cbn [manet.or_incorrect mbind result_bind ma.Encapsulate app].
  rewrite (ToNetAddr_last reg [seg ipn (Some v); seg "udp" (Some p); seg "utp" None]
             (ma.mkProtocol "utp") eq_refl).
  unfold manet.getMaddrParser.
  replace (manet.LookupByProtocolKey reg (ma.Name (ma.mkProtocol "utp")))
    with (Some utp) by (vm_compute; reflexivity).
  cbn [mbind result_bind]. simpl manet.ConvertMultiaddr. unfold manet.parseBasicNetMaddr.
  rewrite (DialArgs_utp ipn v p) by auto.
  destruct Hip as [-> | ->]; reflexivity.
Qed.

(** C5: the round trip [ToNetAddr(FromNetAddr(a))] is claimed to give back
    an address equal to [a] for tcp, udp and ip addresses.  For an IP
    address ([net.IPAddr], whose network name is "ip") it does not: no
    spec of [convert.go] lists "ip" among its [NetNames], so
    [FromNetAddr] fails with the unsupported-network error, whatever the
    collaborators do, and no address comes back. *)
Theorem round_trip_IPAddr_unsupported (ip : net.IP) (zone : string) :
  net.Network (net.IPAddr ip zone) = "ip"
  /\ manet.LookupByNetName reg "ip" = None
  /\ manet.FromNetAddr reg (Some (net.IPAddr ip zone))
     = Err (ErrNetworkNotSupported "ip")
  /\ round_trip reg (net.IPAddr ip zone) = Err (ErrNetworkNotSupported "ip").
Proof.
  assert (Hl : manet.LookupByNetName reg "ip" = None) by (vm_compute; reflexivity).
  split; [reflexivity|]. split; [exact Hl|].
  assert (Hf : manet.FromNetAddr reg (Some (net.IPAddr ip zone))
               = Err (ErrNetworkNotSupported "ip")).
  { unfold manet.FromNetAddr, manet.getAddrParser. simpl net.Network.
    rewrite Hl. reflexivity. }
  split; [exact Hf|]. unfold round_trip. rewrite Hf. reflexivity.
Qed.

End DefaultRegistry.

(** ** The statements at concrete inputs *)

Lemma IsThinWaist_shapes_witness :
  manet.IsThinWaist [seg "ip6" (Some "::1"); seg "udp" (Some "1234"); seg "utp" None] = true
  /\ manet.IsThinWaist [seg "tcp" (Some "80")] = false
  /\ manet.IsThinWaist [seg "ip4" (Some "1.2.3.4"); seg "ip4" (Some "5.6.7.8")] = false.
Proof.
  destruct IsThinWaist_shapes as (Hiff & _ & _ & Htransport & Hdouble).
  split; [|split].
  - apply Hiff. unfold protocol_names, thin_waist_shapes. simpl. tauto.
  - apply Htransport; discriminate.
  - apply Hdouble. left. reflexivity.
Defined.

Lemma DialArgs_fails_iff_not_thin_waist_witness :
  (exists e, manet.DialArgs [seg "ip4" (Some "1.2.3.4"); seg "tcp" (Some "80");
                             seg "tcp" (Some "81")] = Err e)
  /\ (exists network host,
        manet.DialArgs [seg "ip4" (Some "7.7.7.7"); seg "tcp" (Some "4242")]
        = Ret (network, host)).
Proof.
  split.
  - apply (proj1 (DialArgs_fails_iff_not_thin_waist _)). reflexivity.
  - apply (proj2 (proj2 (DialArgs_fails_iff_not_thin_waist _))); reflexivity.
Defined.

Lemma DialArgs_thin_waist_witness :
  manet.DialArgs [seg "ip6" (Some "::1"); seg "udp" (Some "1234")]
  = Ret ("udp6", "[::1]:1234").
Proof.
  destruct (DialArgs_thin_waist [seg "ip6" (Some "::1"); seg "udp" (Some "1234")]
              eq_refl eq_refl)
    as (parts & ipn & ip & Hparts & _ & Hcases).
  injection Hparts as <-.
  destruct Hcases as [(Hl & _) | [(_ & t & port & _ & Hp & H) | (_ & port & rest & Hp & _)]];
    try discriminate.
  injection Hp as <- <- <- <-. exact H.
Defined.

Lemma DialArgs_utp_override_witness :
  exists ipn ip port,
    (ipn = "ip6" /\ ip = "::1" /\ port = "9")
    /\ manet.DialArgs [seg "ip6" (Some "::1"); seg "udp" (Some "9"); seg "utp" None]
       = Ret ("utp" +:+ version_suffix ipn, host_string ipn ip port).
Proof.
  destruct (proj1 DialArgs_utp_override
              [seg "ip6" (Some "::1"); seg "udp" (Some "9"); seg "utp" None]
              ["ip6"; "::1"; "udp"; "9"; "utp"]
              eq_refl eq_refl eq_refl eq_refl)
    as (ipn & ip & port & H0 & _ & H1 & H3 & H).
  exists ipn, ip, port. split; [|exact H].
  injection H0 as <-. injection H1 as <-. injection H3 as <-. repeat split.
Defined.

Lemma FromIP_cases_witness :
  manet.FromIP sample.IP_String sample.canon [Byte.x01; Byte.x02; Byte.x03]
  = Err ErrIncorrectNetAddr
  /\ manet.FromIP sample.IP_String sample.canon sample.ip_mapped
     = Ret [seg "ip4" (Some "10.20.30.40")]
  /\ manet.FromIP sample.IP_String sample.canon sample.ip_2001_db8
     = Ret [seg "ip6" (Some "2001:db8:1:2:3:4:5:6")].
Proof.
  split; [|split].
  - apply (proj1 (FromIP_cases sample.IP_String sample.canon _)); simpl; lia.
  - apply (proj1 (proj2 (FromIP_cases sample.IP_String sample.canon sample.ip_mapped))).
    + right. split; reflexivity.
    + split; [discriminate | reflexivity].
    + reflexivity.
  - apply (proj2 (proj2 (FromIP_cases sample.IP_String sample.canon sample.ip_2001_db8))).
    + reflexivity.
    + intros [_ H]. discriminate H.
    + split; [discriminate | reflexivity].
    + reflexivity.
Defined.

Lemma FromNetAddr_dispatch_witness :
  manet.FromNetAddr sample.registry (Some (net.OtherAddr "unix" "/tmp/sock"))
  = Err (ErrNetworkNotSupported "unix")
  /\ manet.FromNetAddr sample.registry (Some (net.TCPAddr sample.ip_10_20_30_40 80 ""))
     = Ret [seg "ip4" (Some "10.20.30.40"); seg "tcp" (Some "80")].
Proof.
  destruct (FromNetAddr_dispatch sample.registry) as (_ & Hnone & Hsome).
  split.
  - apply (Hnone (net.OtherAddr "unix" "/tmp/sock")). vm_compute. reflexivity.
  - rewrite (Hsome (net.TCPAddr sample.ip_10_20_30_40 80 "")
               (manet.tcpAddrSpec sample.IP_String sample.canon
                  sample.ResolveTCPAddr sample.ResolveUDPAddr
                  sample.ResolveIPAddr sample.utp_ResolveAddr));
      vm_compute; reflexivity.
Defined.

Lemma ToNetAddr_dispatch_witness :
  manet.ToNetAddr sample.registry [seg "sctp" (Some "5")]
  = Err (ErrNetworkNotSupported "sctp")
  /\ manet.ToNetAddr sample.registry
       [seg "ip4" (Some "1.2.3.4"); seg "udp" (Some "9"); seg "utp" None]
     = Ret (net.OtherAddr "utp.ResolveAddr utp4" "1.2.3.4:9").
Proof.
  split.
  - apply (proj1 (proj1 ToNetAddr_dispatch sample.registry [seg "sctp" (Some "5")]
                    (ma.mkProtocol "sctp") eq_refl)).
    vm_compute. reflexivity.
  - rewrite (proj2 (proj1 ToNetAddr_dispatch sample.registry
                      [seg "ip4" (Some "1.2.3.4"); seg "udp" (Some "9"); seg "utp" None]
                      (ma.mkProtocol "utp") eq_refl)
               (manet.utpAddrSpec sample.IP_String sample.canon
                  sample.ResolveTCPAddr sample.ResolveUDPAddr
                  sample.ResolveIPAddr sample.utp_ResolveAddr));
      vm_compute; reflexivity.
Defined.

Lemma parseBasicNetMaddr_dispatch_witness :
  manet.parseBasicNetMaddr sample.ResolveTCPAddr sample.ResolveUDPAddr
    sample.ResolveIPAddr sample.utp_ResolveAddr
    [seg "ip4" (Some "7.7.7.7"); seg "tcp" (Some "4242")]
  = sample.ResolveTCPAddr "tcp4" "7.7.7.7:4242"
  /\ manet.parseBasicNetMaddr sample.ResolveTCPAddr sample.ResolveUDPAddr
       sample.ResolveIPAddr sample.utp_ResolveAddr
       [seg "tcp" (Some "4242")]
     = Err (ErrNotThinWaist "/tcp/4242").
Proof.
  split.
  - apply (proj2 (proj2 (parseBasicNetMaddr_dispatch
                           sample.ResolveTCPAddr sample.ResolveUDPAddr
                           sample.ResolveIPAddr sample.utp_ResolveAddr
                           [seg "ip4" (Some "7.7.7.7"); seg "tcp" (Some "4242")]))
                 eq_refl "tcp4" "7.7.7.7:4242" eq_refl).
    reflexivity.
  - apply (proj1 (parseBasicNetMaddr_dispatch
                    sample.ResolveTCPAddr sample.ResolveUDPAddr
                    sample.ResolveIPAddr sample.utp_ResolveAddr
                    [seg "tcp" (Some "4242")])).
    reflexivity.
Defined.

Lemma ToNetAddr_empty_panics_witness :
  manet.ToNetAddr sample.registry [] = Panics (IndexOutOfRange (-1) 0).
Proof. apply (ToNetAddr_empty_panics sample.registry []). reflexivity. Defined.


(** ** The converters of the address specs *)

(** The parser of the multiaddr library returns a multiaddr or an error of
    its own: it does not panic and its error is never
    [errIncorrectNetAddr]. *)
Lemma parse_outcome (canon : string -> string -> option string)
      (input : string) (sp : list string) :
  (exists m, ma.parse canon input sp = Ret m)
  \/ (exists w, ma.parse canon input sp = Err (ErrCollaborator "ma" w)).
Proof.
  assert (H : forall n sp, (length sp <= n)%nat ->
            (exists m, ma.parse canon input sp = Ret m)
            \/ (exists w, ma.parse canon input sp = Err (ErrCollaborator "ma" w))).
  { clear sp. induction n as [|n IH]; intros sp Hlen.
    - destruct sp; [left; eexists; reflexivity | simpl in Hlen; lia].
    - destruct sp as [|name sp1]; [left; eexists; reflexivity|].
      simpl in Hlen. simpl.
      destruct (ma.carries_value name) as [[|]|]; [| |right; eexists; reflexivity].
      + destruct sp1 as [|text sp2]; [right; eexists; reflexivity|].
        destruct (canon name text); [|right; eexists; reflexivity].
        simpl in Hlen.
        destruct (IH sp2 ltac:(lia)) as [[m ->] | [w ->]];
          [left | right]; eexists; reflexivity.
      + destruct (IH sp1 ltac:(lia)) as [[m ->] | [w ->]];
          [left | right]; eexists; reflexivity. }
  exact (H (length sp) sp (le_n _)).
Qed.

Lemma NewMultiaddr_outcome (canon : string -> string -> option string) (s : string) :
  (exists m, ma.NewMultiaddr canon s = Ret m)
  \/ (exists w, ma.NewMultiaddr canon s = Err (ErrCollaborator "ma" w)).
Proof.
  unfold ma.NewMultiaddr.
  destruct (strings.Split _ _) as [|first sp]; [right; eexists; reflexivity|].
  destruct (first =? "")%string; [apply parse_outcome | right; eexists; reflexivity].
Qed.

(** A name followed by a value that the codec rejects is rejected. *)
Lemma NewMultiaddr_name_value_None (canon : string -> string -> option string)
      (name text : string) :
  strings.free_of "/" name = true ->
  strings.free_of "/" text = true -> text <> "" ->
  ma.carries_value name = Some true ->
  canon name text = None ->
  exists w, ma.NewMultiaddr canon ("/" +:+ name +:+ "/" +:+ text)
            = Err (ErrCollaborator "ma" w).
Proof.
  intros Hn Ht Hne Hcv Hc. unfold ma.NewMultiaddr.
  replace ("/" +:+ name +:+ "/" +:+ text) with (("/" +:+ name +:+ "/") +:+ text)
    by (rewrite !append_assoc; reflexivity).
  rewrite (TrimRight_app_free _ _ _ Ht Hne).
  rewrite !append_assoc, append_cons, append_nil_l.
  cbn [strings.Split]. rewrite Ascii.eqb_refl.
  rewrite append_cons, append_nil_l, Split_app_sep.
  rewrite (Split_free _ _ Hn), (Split_free _ _ Ht).
  simpl. rewrite Hcv, Hc. eexists. reflexivity.
Qed.

Lemma NewMultiaddr_name_value_inv (canon : string -> string -> option string)
      (name text : string) (m : ma.Multiaddr) :
  strings.free_of "/" name = true ->
  strings.free_of "/" text = true -> text <> "" ->
  ma.carries_value name = Some true ->
  ma.NewMultiaddr canon ("/" +:+ name +:+ "/" +:+ text) = Ret m ->
  exists v, canon name text = Some v /\ m = [seg name (Some v)].
Proof.
  intros Hn Ht Hne Hcv H. destruct (canon name text) as [v|] eqn:Hc.
  - rewrite (NewMultiaddr_name_value canon name text v Hn Ht Hne Hcv Hc) in H.
    injection H as <-. eauto.
  - destruct (NewMultiaddr_name_value_None canon name text Hn Ht Hne Hcv Hc) as [w Hw].
    rewrite Hw in H. discriminate H.
Qed.

Lemma or_incorrect_Ret {A : Type} (r : result A) (x : A) :
  manet.or_incorrect r = Ret x <-> r = Ret x.
Proof. destruct r; simpl; split; congruence. Qed.

Section Converters.

Variable IP_String : net.IP -> string.
Variable canon : string -> string -> option string.

Lemma FromIP_no_panic (ip : net.IP) :
  (exists m, manet.FromIP IP_String canon ip = Ret m)
  \/ (exists e, manet.FromIP IP_String canon ip = Err e).
Proof.
  unfold manet.FromIP.
  destruct (bool_decide _);
    [destruct (NewMultiaddr_outcome canon ("/ip4/" +:+ IP_String ip))
       as [[m ->] | [w ->]]; eauto|].
  destruct (bool_decide _); [|eauto].
  destruct (NewMultiaddr_outcome canon ("/ip6/" +:+ IP_String ip))
    as [[m ->] | [w ->]]; eauto.
Qed.

(** X1: [FromIP] returns [errIncorrectNetAddr] exactly when the IP has
    neither 4 nor 16 bytes (an empty or nil IP included); with a 4- or
    16-byte IP its only failure is the multiaddr library's own error; it
    never panics. *)
Theorem FromIP_incorrect_iff (ip : net.IP) :
  (manet.FromIP IP_String canon ip = Err ErrIncorrectNetAddr
   <-> length ip <> 4%nat /\ length ip <> 16%nat)
  /\ (forall e, manet.FromIP IP_String canon ip = Err e ->
        e <> ErrIncorrectNetAddr ->
        exists w, e = ErrCollaborator "ma" w)
  /\ (forall p, manet.FromIP IP_String canon ip <> Panics p).
Proof.
  split; [split|split].
  - intros H. unfold manet.FromIP in H.
    destruct (bool_decide (net.To4 ip <> None)) eqn:E4.
    { destruct (NewMultiaddr_outcome canon ("/ip4/" +:+ IP_String ip))
        as [[m Hm] | [w Hw]]; congruence. }
    destruct (bool_decide (net.To16 ip <> None)) eqn:E16.
    { destruct (NewMultiaddr_outcome canon ("/ip6/" +:+ IP_String ip))
        as [[m Hm] | [w Hw]]; congruence. }
    apply bool_decide_eq_false_1 in E16. apply To16_None.
    destruct (net.To16 ip); [exfalso; apply E16; discriminate | reflexivity].
  - intros [H4 H16]. unfold manet.FromIP.
    rewrite bool_decide_eq_false_2
      by (rewrite To4_Some; unfold v4_mapped; intros [? | [? _]]; congruence).
    rewrite bool_decide_eq_false_2; [reflexivity|].
    intros Hne. apply Hne, To16_None. split; assumption.
  - intros e H Hne. unfold manet.FromIP in H.
    destruct (bool_decide (net.To4 ip <> None)).
    { destruct (NewMultiaddr_outcome canon ("/ip4/" +:+ IP_String ip))
        as [[m Hm] | [w Hw]]; [congruence|]. exists w. congruence. }
    destruct (bool_decide (net.To16 ip <> None)); [|congruence].
    destruct (NewMultiaddr_outcome canon ("/ip6/" +:+ IP_String ip))
      as [[m Hm] | [w Hw]]; [congruence|]. exists w. congruence.
  - intros p H. destruct (FromIP_no_panic ip) as [[m Hm] | [e He]]; congruence.
Qed.

Lemma FromIP_Ret_inv (ip : net.IP) (m : ma.Multiaddr) :
  value_text (IP_String ip) ->
  manet.FromIP IP_String canon ip = Ret m ->
  exists ipn v, ip_family ipn ip
    /\ canon ipn (IP_String ip) = Some v /\ m = [seg ipn (Some v)].
Proof.
  intros [Hne Hfree] H. unfold manet.FromIP in H.
  destruct (bool_decide (net.To4 ip <> None)) eqn:E4.
  { apply bool_decide_eq_true_1, To4_Some in E4.
    apply (NewMultiaddr_name_value_inv canon "ip4") in H; auto.
    destruct H as (v & Hc & ->). exists "ip4", v. split; [left; auto | auto]. }
  apply bool_decide_eq_false_1 in E4.
  destruct (bool_decide (net.To16 ip <> None)) eqn:E16; [|discriminate H].
  apply bool_decide_eq_true_1 in E16.
  apply (NewMultiaddr_name_value_inv canon "ip6") in H; auto.
  destruct H as (v & Hc & ->). exists "ip6", v. split; [|auto].
  right. split; [reflexivity|].
  assert (H4 : ~ (length ip = 4%nat \/ v4_mapped ip)).
  { intros Hx. apply E4. intros HN. apply To4_Some in Hx. congruence. }
  assert (Hl : length ip = 4%nat \/ length ip = 16%nat).
  { destruct (Nat.eq_dec (length ip) 4); [auto|].
    destruct (Nat.eq_dec (length ip) 16); [auto|].
    exfalso. apply E16, To16_None. auto. }
  split; [tauto | tauto].
Qed.

(** X2: an IPv4 address gives the same layered address in its 4-byte form
    and in its 16-byte IPv4-in-IPv6 form, whenever the two forms print
    alike. *)
Theorem FromIP_mapped_same (ip : net.IP) :
  length ip = 4%nat ->
  IP_String (net.v4InV6Prefix ++ ip) = IP_String ip ->
  manet.FromIP IP_String canon (net.v4InV6Prefix ++ ip)
  = manet.FromIP IP_String canon ip.
Proof.
  intros Hl Hs. unfold manet.FromIP. rewrite Hs.
  rewrite !bool_decide_eq_true_2; [reflexivity | |].
  - apply To4_Some. left. exact Hl.
  - apply To4_Some. right. split.
    + rewrite length_app, Hl. reflexivity.
    + rewrite take_app_length'; reflexivity.
Qed.






(** What a transport converter returns for an IP and a port text. *)
Lemma transport_steps_Ret (ip : net.IP) (name text : string) (m : ma.Multiaddr) :
  value_text (IP_String ip) -> value_text text ->
  strings.free_of "/" name = true -> ma.carries_value name = Some true ->
  (ipm ← manet.or_incorrect (manet.FromIP IP_String canon ip);
   tm ← manet.or_incorrect (ma.NewMultiaddr canon ("/" +:+ name +:+ "/" +:+ text));
   Ret (ma.Encapsulate ipm tm)) = Ret m ->
  exists ipn v p, ip_family ipn ip
    /\ canon ipn (IP_String ip) = Some v /\ canon name text = Some p
    /\ m = [seg ipn (Some v); seg name (Some p)].
Proof.
  intros Hip [Hne Hfree] Hn Hcv H.
  destruct (manet.or_incorrect (manet.FromIP IP_String canon ip)) as [ipm|e|q] eqn:E1;
    try discriminate H.
  apply (proj1 (or_incorrect_Ret _ _)) in E1. apply (FromIP_Ret_inv ip ipm Hip) in E1.
  destruct E1 as (ipn & v & Hfam & Hc & ->).
  cbn [mbind result_bind] in H.
  destruct (manet.or_incorrect (ma.NewMultiaddr canon _)) as [tm|e|q] eqn:E2;
    try discriminate H.
  apply (proj1 (or_incorrect_Ret _ _)) in E2.
  apply NewMultiaddr_name_value_inv in E2; auto.
  destruct E2 as (p & Hp & ->). cbn [mbind result_bind] in H.
  injection H as <-. exists ipn, v, p. auto.
Qed.

(** X4: when [parseTcpNetAddr] succeeds, its argument is a [*net.TCPAddr]
    and, the printed IP being a value text, its result is the IP segment
    followed by the tcp segment that holds the port: a thin-waist address
    of exactly two segments, tagged ip4 for a 4-byte or IPv4-in-IPv6 IP and
    ip6 for any other 16-byte IP. *)
Theorem parseTcpNetAddr_Ret (a : net.Addr) (m : ma.Multiaddr) :
  manet.parseTcpNetAddr IP_String canon a = Ret m ->
  exists ip port zone, a = net.TCPAddr ip port zone
    /\ (value_text (IP_String ip) ->
        exists ipn v p, ip_family ipn ip
          /\ canon ipn (IP_String ip) = Some v
          /\ canon "tcp" (fmt.d port) = Some p
          /\ m = [seg ipn (Some v); seg "tcp" (Some p)]
          /\ manet.IsThinWaist m = true).
Proof.
  intros H. destruct a as [ip port zone| | | | |]; try discriminate H.
  exists ip, port, zone. split; [reflexivity|]. intros Hip.
  unfold manet.parseTcpNetAddr in H.
  change ("/tcp/" +:+ fmt.d port) with ("/" +:+ "tcp" +:+ "/" +:+ fmt.d port) in H.
  apply transport_steps_Ret in H; auto using fmt_d_value_text.
  destruct H as (ipn & v & p & Hfam & Hv & Hp & ->).
  exists ipn, v, p. repeat split; auto.
  destruct Hfam as [[-> _] | [-> _]]; reflexivity.
Qed.

(** X5: the same for [parseUdpNetAddr]: a [*net.UDPAddr] goes to the IP
    segment followed by the udp segment. *)
Theorem parseUdpNetAddr_Ret (a : net.Addr) (m : ma.Multiaddr) :
  manet.parseUdpNetAddr IP_String canon a = Ret m ->
  exists ip port zone, a = net.UDPAddr ip port zone
    /\ (value_text (IP_String ip) ->
        exists ipn v p, ip_family ipn ip
          /\ canon ipn (IP_String ip) = Some v
          /\ canon "udp" (fmt.d port) = Some p
          /\ m = [seg ipn (Some v); seg "udp" (Some p)]
          /\ manet.IsThinWaist m = true).
Proof.
  intros H. destruct a as [|ip port zone| | | |]; try discriminate H.
  exists ip, port, zone. split; [reflexivity|]. intros Hip.
  unfold manet.parseUdpNetAddr in H.
  change ("/udp/" +:+ fmt.d port) with ("/" +:+ "udp" +:+ "/" +:+ fmt.d port) in H.
  apply transport_steps_Ret in H; auto using fmt_d_value_text.
  destruct H as (ipn & v & p & Hfam & Hv & Hp & ->).
  exists ipn, v, p. repeat split; auto.
  destruct Hfam as [[-> _] | [-> _]]; reflexivity.
Qed.

Lemma NewMultiaddr_udp_utp_inv (text : string) (m : ma.Multiaddr) :
  value_text text ->
  ma.NewMultiaddr canon ("/udp/" +:+ text +:+ "/utp") = Ret m ->
  exists p, canon "udp" text = Some p /\ m = [seg "udp" (Some p); seg "utp" None].
Proof.
  intros [Hne Hfree] H. unfold ma.NewMultiaddr in H.
  replace ("/udp/" +:+ text +:+ "/utp") with (("/udp/" +:+ text +:+ "/") +:+ "utp") in H
    by (rewrite !append_assoc; reflexivity).
  rewrite TrimRight_app_free in H by (reflexivity || discriminate).
  rewrite !append_assoc in H.
  change ("/udp/" +:+ text +:+ "/" +:+ "utp")
    with (String "/" ("udp" +:+ String "/" (text +:+ String "/" "utp"))) in H.
  cbn [strings.Split] in H. rewrite Ascii.eqb_refl in H.
  rewrite !Split_app_sep, (Split_free _ _ Hfree) in H.
  simpl in H. destruct (canon "udp" text) as [p|]; [|discriminate H].
  injection H as <-. eauto.
Qed.

(** What [parseUtpNetAddr] returns for the IP and port of the wrapped
    address. *)
Lemma utp_steps_Ret (ip : net.IP) (port : Z) (m : ma.Multiaddr) :
  value_text (IP_String ip) ->
  (ipm ← manet.or_incorrect (manet.FromIP IP_String canon ip);
   utpm ← manet.or_incorrect
            (ma.NewMultiaddr canon ("/udp/" +:+ fmt.d port +:+ "/utp"));
   Ret (ma.Encapsulate ipm utpm)) = Ret m ->
  exists ipn v p, ip_family ipn ip
    /\ canon ipn (IP_String ip) = Some v /\ canon "udp" (fmt.d port) = Some p
    /\ m = [seg ipn (Some v); seg "udp" (Some p); seg "utp" None].
Proof.
  intros Hip H.
  destruct (manet.or_incorrect (manet.FromIP IP_String canon ip)) as [ipm|e|q] eqn:E1;
    try discriminate H.
  apply (proj1 (or_incorrect_Ret _ _)) in E1. apply (FromIP_Ret_inv ip ipm Hip) in E1.
  destruct E1 as (ipn & v & Hfam & Hc & ->).
  cbn [mbind result_bind] in H.
  destruct (manet.or_incorrect (ma.NewMultiaddr canon _)) as [tm|e|q] eqn:E2;
    try discriminate H.
  apply (proj1 (or_incorrect_Ret _ _)) in E2.
  apply NewMultiaddr_udp_utp_inv in E2; [|apply fmt_d_value_text].
  destruct E2 as (p & Hp & ->). cbn [mbind result_bind] in H.
  injection H as <-. exists ipn, v, p. auto.
Qed.

(** X6: when [parseUtpNetAddr] succeeds, its argument is a utp address
    that wraps a [*net.UDPAddr], and its result is the IP segment, the udp
    segment with the port of the wrapped address, and the utp marker: a
    thin-waist address of three segments. *)
Theorem parseUtpNetAddr_Ret (a : net.Addr) (m : ma.Multiaddr) :
  manet.parseUtpNetAddr IP_String canon a = Ret m ->
  exists net ip port zone, a = net.utp_Addr net (net.UDPAddr ip port zone)
    /\ (value_text (IP_String ip) ->
        exists ipn v p, ip_family ipn ip
          /\ canon ipn (IP_String ip) = Some v
          /\ canon "udp" (fmt.d port) = Some p
          /\ m = [seg ipn (Some v); seg "udp" (Some p); seg "utp" None]
          /\ manet.IsThinWaist m = true).
Proof.
  intros H. destruct a as [| | | |net child|]; try discriminate H.
  destruct child as [|ip port zone| | | |]; try discriminate H.
  exists net, ip, port, zone. split; [reflexivity|]. intros Hip.
  unfold manet.parseUtpNetAddr in H. apply (utp_steps_Ret ip port m Hip) in H.
  destruct H as (ipn & v & p & Hfam & Hv & Hp & ->).
  exists ipn, v, p. repeat split; auto.
  destruct Hfam as [[-> _] | [-> _]]; reflexivity.
Qed.

(** X7: [parseIpNetAddr] accepts a [*net.IPAddr] only and
    [parseIpPlusNetAddr] a [*net.IPNet] only; what they return is what
    [FromIP] makes of the IP field (zone and mask play no part), a single
    IP segment, which is a thin-waist address. *)
Theorem parseIpNetAddr_Ret (a : net.Addr) (m : ma.Multiaddr) :
  (manet.parseIpNetAddr IP_String canon a = Ret m ->
   exists ip zone, a = net.IPAddr ip zone
     /\ (value_text (IP_String ip) ->
         exists ipn v, ip_family ipn ip /\ canon ipn (IP_String ip) = Some v
           /\ m = [seg ipn (Some v)] /\ manet.IsThinWaist m = true))
  /\ (manet.parseIpPlusNetAddr IP_String canon a = Ret m ->
      exists ip mask, a = net.IPNet ip mask
        /\ (value_text (IP_String ip) ->
            exists ipn v, ip_family ipn ip /\ canon ipn (IP_String ip) = Some v
              /\ m = [seg ipn (Some v)] /\ manet.IsThinWaist m = true)).
Proof.
  split; intros H.
  - destruct a as [| |ip zone| | |]; try discriminate H.
    exists ip, zone. split; [reflexivity|]. intros Hip.
    apply (FromIP_Ret_inv ip m Hip) in H. destruct H as (ipn & v & Hfam & Hc & ->).
    exists ipn, v. repeat split; auto.
    destruct Hfam as [[-> _] | [-> _]]; reflexivity.
  - destruct a as [| | |ip mask| |]; try discriminate H.
    exists ip, mask. split; [reflexivity|]. intros Hip.
    apply (FromIP_Ret_inv ip m Hip) in H. destruct H as (ipn & v & Hfam & Hc & ->).
    exists ipn, v. repeat split; auto.
    destruct Hfam as [[-> _] | [-> _]]; reflexivity.
Qed.

End Converters.

(** ** The facade over the registered specs *)

Section DefaultFacade.

Variable IP_String : net.IP -> string.
Variable canon : string -> string -> option string.
Variables ResolveTCPAddr ResolveUDPAddr ResolveIPAddr utp_ResolveAddr :
  string -> string -> result net.Addr.

Let reg : manet.Registry :=
  manet.defaultRegistry IP_String canon
    ResolveTCPAddr ResolveUDPAddr ResolveIPAddr utp_ResolveAddr.
Let basic : ma.Multiaddr -> result net.Addr :=
  manet.parseBasicNetMaddr ResolveTCPAddr ResolveUDPAddr ResolveIPAddr utp_ResolveAddr.

(** X8: on a valid thin-waist address [parseBasicNetMaddr] calls exactly
    one resolver and returns its answer: the IP resolver with the IP
    segment's name and the bare address for an IP alone, the TCP, UDP or
    utp resolver with the versioned name and the host string otherwise.
    Its own unsupported-network return is never taken. *)
Theorem parseBasicNetMaddr_by_shape (m : ma.Multiaddr) :
  ma.valid m = true -> manet.IsThinWaist m = true ->
  exists ipn ip, (ipn = "ip4" \/ ipn = "ip6") /\
    ((m = [seg ipn (Some ip)] /\ basic m = ResolveIPAddr ipn ip)
     \/ (exists port, m = [seg ipn (Some ip); seg "tcp" (Some port)]
           /\ basic m = ResolveTCPAddr ("tcp" +:+ version_suffix ipn)
                                       (host_string ipn ip port))
     \/ (exists port, m = [seg ipn (Some ip); seg "udp" (Some port)]
           /\ basic m = ResolveUDPAddr ("udp" +:+ version_suffix ipn)
                                       (host_string ipn ip port))
     \/ (exists port v, m = [seg ipn (Some ip); seg "udp" (Some port); seg "utp" v]
           /\ basic m = utp_ResolveAddr ("utp" +:+ version_suffix ipn)
                                        (host_string ipn ip port))).
Proof.
  intros Hv Htw. subst basic. unfold manet.parseBasicNetMaddr.
  destruct (DialArgs_valid_cases m Hv Htw)
    as (ipn & ip & Hip & [(Hm & _ & H) | [(t & port & Ht & Hm & H) | (port & v & Hm & H)]]);
    exists ipn, ip; (split; [exact Hip|]); rewrite H; cbn [mbind result_bind].
  - left. split; [exact Hm|]. destruct Hip as [-> | ->]; reflexivity.
  - destruct Ht as [-> | ->]; [right; left | right; right; left];
      exists port; (split; [exact Hm|]); destruct Hip as [-> | ->]; reflexivity.
  - right; right; right. exists port, v. split; [exact Hm|].
    destruct Hip as [-> | ->]; reflexivity.
Qed.

(** The protocol keys of the registered specs, and their converter. *)
Lemma LookupByProtocolKey_default (key : string) :
  (In key ["tcp"; "udp"; "utp"; "ip4"; "ip6"] ->
   exists spec, manet.LookupByProtocolKey reg key = Some spec
                /\ manet.ConvertMultiaddr spec = basic)
  /\ (~ In key ["tcp"; "udp"; "utp"; "ip4"; "ip6"] ->
      manet.LookupByProtocolKey reg key = None).
Proof.
  split.
  - intros H. simpl in H. unfold manet.LookupByProtocolKey. subst reg.
    rewrite maddrParsers_default.
    repeat (destruct H as [<- | H];
            [eexists; split;
             [repeat (rewrite lookup_insert_ne by discriminate);
              apply lookup_insert_eq
             | reflexivity]|]).
    destruct H.
  - intros H. unfold manet.LookupByProtocolKey. subst reg.
    rewrite maddrParsers_default.
    repeat match goal with
           | |- <[?k := _]> _ !! _ = None =>
               rewrite lookup_insert_ne
                 by (intros <-; apply H; simpl; tauto)
           end.
    apply lookup_empty.
Qed.

(** X9: with the specs of [convert.go] registered, every address whose
    last protocol is tcp, udp, utp, ip4 or ip6 is converted by the one
    shared converter: [ToNetAddr] returns what [parseBasicNetMaddr]
    returns.  Every thin-waist address is such an address, so for it a
    converter is always found. *)
Theorem ToNetAddr_shared_converter (m : ma.Multiaddr) :
  (forall final, last (ma.Protocols m) = Some final ->
     In (ma.Name final) ["tcp"; "udp"; "utp"; "ip4"; "ip6"] ->
     manet.ToNetAddr reg m = basic m)
  /\ (manet.IsThinWaist m = true -> manet.ToNetAddr reg m = basic m).
Proof.
  assert (H : forall final, last (ma.Protocols m) = Some final ->
            In (ma.Name final) ["tcp"; "udp"; "utp"; "ip4"; "ip6"] ->
            manet.ToNetAddr reg m = basic m).
  { intros final Hlast Hin. rewrite (ToNetAddr_last reg m final Hlast).
    unfold manet.getMaddrParser.
    destruct (proj1 (LookupByProtocolKey_default _) Hin) as (spec & -> & Hc).
    cbn [mbind result_bind]. rewrite Hc. reflexivity. }
  split; [exact H|]. intros Htw.
  destruct (IsThinWaist_inv m Htw)
    as (ipn & v0 & Hip & [-> | [(t & v1 & Ht & ->) | (v1 & v2 & ->)]]).
  - apply (H (ma.mkProtocol ipn)); [reflexivity|].
    destruct Hip as [-> | ->]; simpl; tauto.
  - apply (H (ma.mkProtocol t)); [reflexivity|].
    destruct Ht as [-> | ->]; simpl; tauto.
  - apply (H (ma.mkProtocol "utp")); [reflexivity|]. simpl; tauto.
Qed.

(** X10: with the specs of [convert.go] registered, [ToNetAddr] fails on
    an address before any resolver is called in two ways: with the
    unsupported-network error, naming the last protocol, when that
    protocol is none of tcp, udp, utp, ip4, ip6; and with the
    not-thin-waist error when the last protocol is one of them but the
    stack is not a thin-waist shape. *)
Theorem ToNetAddr_rejects (m : ma.Multiaddr) (final : ma.Protocol) :
  last (ma.Protocols m) = Some final ->
  (~ In (ma.Name final) ["tcp"; "udp"; "utp"; "ip4"; "ip6"] ->
   manet.ToNetAddr reg m = Err (ErrNetworkNotSupported (ma.Name final)))
  /\ (In (ma.Name final) ["tcp"; "udp"; "utp"; "ip4"; "ip6"] ->
      manet.IsThinWaist m = false ->
      manet.ToNetAddr reg m = Err (ErrNotThinWaist (ma.String m))).
Proof.
  intros Hlast. rewrite (ToNetAddr_last reg m final Hlast).
  unfold manet.getMaddrParser. split.
  - intros Hn. rewrite (proj2 (LookupByProtocolKey_default _) Hn). reflexivity.
  - intros Hin Htw.
    destruct (proj1 (LookupByProtocolKey_default _) Hin) as (spec & -> & Hc).
    cbn [mbind result_bind]. rewrite Hc. subst basic.
    unfold manet.parseBasicNetMaddr, manet.DialArgs. rewrite Htw. reflexivity.
Qed.

(** The network names of the registered specs, and their converter. *)
Lemma LookupByNetName_default_spec (name : string) (spec : manet.AddressSpec) :
  manet.LookupByNetName reg name = Some spec ->
  (In name tcp_names
   /\ manet.ParseNetAddr spec = manet.parseTcpNetAddr IP_String canon)
  \/ (In name udp_names
      /\ manet.ParseNetAddr spec = manet.parseUdpNetAddr IP_String canon)
  \/ (In name utp_names
      /\ manet.ParseNetAddr spec = manet.parseUtpNetAddr IP_String canon)
  \/ (In name ["ip4"; "ip6"]
      /\ manet.ParseNetAddr spec = manet.parseIpNetAddr IP_String canon).
Proof.
  unfold manet.LookupByNetName. subst reg. rewrite addrParsers_default.
  unfold tcp_names, udp_names, utp_names. intros H.
  repeat match type of H with
         | <[?k := _]> _ !! _ = Some _ =>
             let Hne := fresh "Hne" in
             destruct (decide (k = name)) as [<- | Hne];
             [rewrite lookup_insert_eq in H; injection H as <-;
              simpl; tauto
             | rewrite lookup_insert_ne in H by exact Hne]
         end.
  rewrite lookup_empty in H. discriminate H.
Qed.

(** X11: with the specs of [convert.go] registered, an address that
    reports a registered network name without being of the concrete type
    the spec asserts on is refused with [errIncorrectNetAddr]: any other
    implementation of [net.Addr] under one of the eleven names, and a utp
    address whose child is not a [*net.UDPAddr]. *)
Theorem FromNetAddr_wrong_type :
  (forall network str,
     In network (tcp_names ++ udp_names ++ utp_names ++ ["ip4"; "ip6"]) ->
     manet.FromNetAddr reg (Some (net.OtherAddr network str))
     = Err ErrIncorrectNetAddr)
  /\ (forall net child,
        In net utp_names ->
        (forall ip port zone, child <> net.UDPAddr ip port zone) ->
        manet.FromNetAddr reg (Some (net.utp_Addr net child))
        = Err ErrIncorrectNetAddr).
Proof.
  split.
  - intros network str Hin.
    apply (LookupByNetName_default IP_String canon ResolveTCPAddr ResolveUDPAddr
             ResolveIPAddr utp_ResolveAddr) in Hin.
    destruct Hin as [spec Hs]. unfold manet.FromNetAddr, manet.getAddrParser.
    simpl net.Network. fold reg in Hs. rewrite Hs. cbn [mbind result_bind].
    destruct (LookupByNetName_default_spec network spec Hs)
      as [[_ ->] | [[_ ->] | [[_ ->] | [_ ->]]]]; reflexivity.
  - intros net child Hin Hchild.
    unfold manet.FromNetAddr, manet.getAddrParser. simpl net.Network.
    assert (Hs : manet.LookupByNetName reg net
                 = Some (manet.utpAddrSpec IP_String canon ResolveTCPAddr
                           ResolveUDPAddr ResolveIPAddr utp_ResolveAddr)).
    { unfold utp_names in Hin. simpl in Hin.
      unfold manet.LookupByNetName. subst reg. rewrite addrParsers_default.
      repeat (destruct Hin as [<- | Hin];
              [repeat (rewrite lookup_insert_ne by discriminate);
               apply lookup_insert_eq|]).
      destruct Hin. }
    rewrite Hs. cbn [mbind result_bind]. simpl manet.ParseNetAddr.
    destruct child as [|ip port zone| | | |]; try reflexivity.
    exfalso. exact (Hchild ip port zone eq_refl).
Qed.

(** X12: with the specs of [convert.go] registered, a TCP, UDP or utp
    address whose IP has neither 4 nor 16 bytes (a nil IP, as in a
    wildcard address, included) is refused with [errIncorrectNetAddr],
    whatever its port. *)
Theorem FromNetAddr_bad_IP (ip : net.IP) (port : Z) (zone : string) :
  length ip <> 4%nat -> length ip <> 16%nat ->
  manet.FromNetAddr reg (Some (net.TCPAddr ip port zone)) = Err ErrIncorrectNetAddr
  /\ manet.FromNetAddr reg (Some (net.UDPAddr ip port zone)) = Err ErrIncorrectNetAddr
  /\ manet.FromNetAddr reg (Some (net.utp_Addr "utp" (net.UDPAddr ip port zone)))
     = Err ErrIncorrectNetAddr.
Proof.
  intros H4 H16.
  assert (Hf : manet.FromIP IP_String canon ip = Err ErrIncorrectNetAddr).
  { unfold manet.FromIP.
    rewrite bool_decide_eq_false_2
      by (rewrite To4_Some; unfold v4_mapped; intros [? | [? _]]; congruence).
    rewrite bool_decide_eq_false_2; [reflexivity|].
    intros Hne. apply Hne, To16_None. split; assumption. }
  unfold manet.FromNetAddr, manet.getAddrParser. simpl net.Network.
  replace (manet.LookupByNetName reg "tcp")
    with (Some (manet.tcpAddrSpec IP_String canon ResolveTCPAddr
                  ResolveUDPAddr ResolveIPAddr utp_ResolveAddr))
    by (vm_compute; reflexivity).
  replace (manet.LookupByNetName reg "udp")
    with (Some (manet.udpAddrSpec IP_String canon ResolveTCPAddr
                  ResolveUDPAddr ResolveIPAddr utp_ResolveAddr))
    by (vm_compute; reflexivity).
  replace (manet.LookupByNetName reg "utp")
    with (Some (manet.utpAddrSpec IP_String canon ResolveTCPAddr
                  ResolveUDPAddr ResolveIPAddr utp_ResolveAddr))
    by (vm_compute; reflexivity).
  cbn [mbind result_bind]. simpl manet.ParseNetAddr.
  unfold manet.parseTcpNetAddr, manet.parseUdpNetAddr, manet.parseUtpNetAddr.
  rewrite Hf. repeat split; reflexivity.
Qed.

(** X13: with the specs of [convert.go] registered, [FromNetAddr] succeeds
    only on a [*net.TCPAddr], a [*net.UDPAddr] or a utp address wrapping a
    [*net.UDPAddr]; and, the printed IP being a value text, what it
    returns is a thin-waist address whose last protocol is tcp, udp or
    utp accordingly. *)
Theorem FromNetAddr_Ret_thin_waist (a : net.Addr) (m : ma.Multiaddr) :
  manet.FromNetAddr reg (Some a) = Ret m ->
  exists ip port zone t,
    ((a = net.TCPAddr ip port zone /\ t = "tcp")
     \/ (a = net.UDPAddr ip port zone /\ t = "udp")
     \/ (exists net, a = net.utp_Addr net (net.UDPAddr ip port zone) /\ t = "utp"))
    /\ (value_text (IP_String ip) ->
        manet.IsThinWaist m = true
        /\ last (protocol_names m) = Some t).
Proof.
  unfold manet.FromNetAddr, manet.getAddrParser.
  destruct (manet.LookupByNetName reg (net.Network a)) as [spec|] eqn:Hs;
    [|discriminate].
  cbn [mbind result_bind]. intros H.
  destruct (LookupByNetName_default_spec _ spec Hs)
    as [[Hin Hp] | [[Hin Hp] | [[Hin Hp] | [Hin Hp]]]]; rewrite Hp in H.
  - destruct a as [ip port zone| | | | |]; try discriminate H.
    exists ip, port, zone, "tcp". split; [left; auto|]. intros Hip.
    unfold manet.parseTcpNetAddr in H.
    change ("/tcp/" +:+ fmt.d port) with ("/" +:+ "tcp" +:+ "/" +:+ fmt.d port) in H.
    apply transport_steps_Ret in H; auto using fmt_d_value_text.
    destruct H as (ipn & v & p & Hfam & _ & _ & ->).
    destruct Hfam as [[-> _] | [-> _]]; split; reflexivity.
  - destruct a as [|ip port zone| | | |]; try discriminate H.
    exists ip, port, zone, "udp". split; [right; left; auto|]. intros Hip.
    unfold manet.parseUdpNetAddr in H.
    change ("/udp/" +:+ fmt.d port) with ("/" +:+ "udp" +:+ "/" +:+ fmt.d port) in H.
    apply transport_steps_Ret in H; auto using fmt_d_value_text.
    destruct H as (ipn & v & p & Hfam & _ & _ & ->).
    destruct Hfam as [[-> _] | [-> _]]; split; reflexivity.
  - destruct a as [| | | |net child|]; try discriminate H.
    destruct child as [|ip port zone| | | |]; try discriminate H.
    exists ip, port, zone, "utp". split; [right; right; eauto|]. intros Hip.
    unfold manet.parseUtpNetAddr in H. apply (utp_steps_Ret _ _ ip port m Hip) in H.
    destruct H as (ipn & v & p & Hfam & _ & _ & ->).
    destruct Hfam as [[-> _] | [-> _]]; split; reflexivity.
  - exfalso. destruct a as [| |ip zone| | |]; try discriminate H.
    simpl in Hs, Hin. vm_compute in Hs. discriminate Hs.
Qed.

End DefaultFacade.

(** ** The added statements at concrete inputs *)

Lemma FromIP_incorrect_iff_witness :
  manet.FromIP sample.IP_String sample.canon [] = Err ErrIncorrectNetAddr
  /\ length sample.ip_2001_db8 = 16%nat.
Proof.
  destruct (FromIP_incorrect_iff sample.IP_String sample.canon []) as ([_ Hbad] & _).
  split; [apply Hbad; simpl; lia | reflexivity].
Defined.

Lemma FromIP_mapped_same_witness :
  manet.FromIP sample.IP_String sample.canon sample.ip_mapped
  = manet.FromIP sample.IP_String sample.canon sample.ip_10_20_30_40.
Proof.
  apply (FromIP_mapped_same sample.IP_String sample.canon sample.ip_10_20_30_40);
    reflexivity.
Defined.

Lemma parseTcpNetAddr_Ret_witness :
  manet.IsThinWaist [seg "ip4" (Some "10.20.30.40"); seg "tcp" (Some "80")] = true.
Proof.
  destruct (parseTcpNetAddr_Ret sample.IP_String sample.canon
              (net.TCPAddr sample.ip_10_20_30_40 80 "")
              [seg "ip4" (Some "10.20.30.40"); seg "tcp" (Some "80")] eq_refl)
    as (ip & port & zone & Ha & H).
  injection Ha as Hip _ _; symmetry in Hip.
  assert (Hvt : value_text (sample.IP_String ip))
    by (subst ip; split; [vm_compute; discriminate | vm_compute; reflexivity]).
  destruct (H Hvt) as (ipn & v & p & _ & _ & _ & _ & Htw).
  exact Htw.
Defined.

Lemma parseUdpNetAddr_Ret_witness :
  manet.IsThinWaist
    [seg "ip6" (Some "2001:db8:1:2:3:4:5:6"); seg "udp" (Some "53")] = true.
Proof.
  destruct (parseUdpNetAddr_Ret sample.IP_String sample.canon
              (net.UDPAddr sample.ip_2001_db8 53 "")
              [seg "ip6" (Some "2001:db8:1:2:3:4:5:6"); seg "udp" (Some "53")] eq_refl)
    as (ip & port & zone & Ha & H).
  injection Ha as Hip _ _; symmetry in Hip.
  assert (Hvt : value_text (sample.IP_String ip))
    by (subst ip; split; [vm_compute; discriminate | vm_compute; reflexivity]).
  destruct (H Hvt) as (ipn & v & p & _ & _ & _ & _ & Htw).
  exact Htw.
Defined.

Lemma parseUtpNetAddr_Ret_witness :
  manet.IsThinWaist
    [seg "ip4" (Some "10.20.30.40"); seg "udp" (Some "9"); seg "utp" None] = true.
Proof.
  destruct (parseUtpNetAddr_Ret sample.IP_String sample.canon
              (net.utp_Addr "utp" (net.UDPAddr sample.ip_mapped 9 ""))
              [seg "ip4" (Some "10.20.30.40"); seg "udp" (Some "9"); seg "utp" None]
              eq_refl)
    as (net & ip & port & zone & Ha & H).
  injection Ha as _ Hip _ _; symmetry in Hip.
  assert (Hvt : value_text (sample.IP_String ip))
    by (subst ip; split; [vm_compute; discriminate | vm_compute; reflexivity]).
  destruct (H Hvt) as (ipn & v & p & _ & _ & _ & _ & Htw).
  exact Htw.
Defined.

Lemma parseIpNetAddr_Ret_witness :
  manet.IsThinWaist [seg "ip4" (Some "10.20.30.40")] = true
  /\ manet.IsThinWaist [seg "ip6" (Some "2001:db8:1:2:3:4:5:6")] = true.
Proof.
  split.
  - destruct (proj1 (parseIpNetAddr_Ret sample.IP_String sample.canon
                       (net.IPAddr sample.ip_10_20_30_40 "")
                       [seg "ip4" (Some "10.20.30.40")]) eq_refl)
      as (ip & zone & Ha & H).
    injection Ha as Hip _; symmetry in Hip.
    assert (Hvt : value_text (sample.IP_String ip))
      by (subst ip; split; [vm_compute; discriminate | vm_compute; reflexivity]).
    destruct (H Hvt) as (ipn & v & _ & _ & _ & Htw).
    exact Htw.
  - destruct (proj2 (parseIpNetAddr_Ret sample.IP_String sample.canon
                       (net.IPNet sample.ip_2001_db8 [])
                       [seg "ip6" (Some "2001:db8:1:2:3:4:5:6")]) eq_refl)
      as (ip & mask & Ha & H).
    injection Ha as Hip _; symmetry in Hip.
    assert (Hvt : value_text (sample.IP_String ip))
      by (subst ip; split; [vm_compute; discriminate | vm_compute; reflexivity]).
    destruct (H Hvt) as (ipn & v & _ & _ & _ & Htw).
    exact Htw.
Defined.

Lemma parseBasicNetMaddr_by_shape_witness :
  manet.parseBasicNetMaddr sample.ResolveTCPAddr sample.ResolveUDPAddr
    sample.ResolveIPAddr sample.utp_ResolveAddr [seg "ip6" (Some "::1")]
  = sample.ResolveIPAddr "ip6" "::1".
Proof.
  destruct (parseBasicNetMaddr_by_shape sample.ResolveTCPAddr sample.ResolveUDPAddr
              sample.ResolveIPAddr sample.utp_ResolveAddr
              [seg "ip6" (Some "::1")] eq_refl eq_refl)
    as (ipn & ip & _ & [(Hm & H) | [(port & Hm & _) | [(port & Hm & _) | (port & v & Hm & _)]]]);
    try discriminate Hm.
  injection Hm as <- <-. exact H.
Defined.

Lemma ToNetAddr_shared_converter_witness :
  manet.ToNetAddr sample.registry [seg "ip4" (Some "7.7.7.7"); seg "tcp" (Some "4242")]
  = manet.parseBasicNetMaddr sample.ResolveTCPAddr sample.ResolveUDPAddr
      sample.ResolveIPAddr sample.utp_ResolveAddr
      [seg "ip4" (Some "7.7.7.7"); seg "tcp" (Some "4242")].
Proof.
  apply (proj2 (ToNetAddr_shared_converter sample.IP_String sample.canon
                  sample.ResolveTCPAddr sample.ResolveUDPAddr
                  sample.ResolveIPAddr sample.utp_ResolveAddr
                  [seg "ip4" (Some "7.7.7.7"); seg "tcp" (Some "4242")])).
  reflexivity.
Defined.

Lemma ToNetAddr_rejects_witness :
  manet.ToNetAddr sample.registry [seg "ip4" (Some "1.2.3.4"); seg "sctp" (Some "5")]
  = Err (ErrNetworkNotSupported "sctp")
  /\ manet.ToNetAddr sample.registry
       [seg "ip4" (Some "1.2.3.4"); seg "tcp" (Some "80"); seg "tcp" (Some "81")]
     = Err (ErrNotThinWaist "/ip4/1.2.3.4/tcp/80/tcp/81").
Proof.
  split.
  - apply (proj1 (ToNetAddr_rejects sample.IP_String sample.canon
                    sample.ResolveTCPAddr sample.ResolveUDPAddr
                    sample.ResolveIPAddr sample.utp_ResolveAddr
                    [seg "ip4" (Some "1.2.3.4"); seg "sctp" (Some "5")]
                    (ma.mkProtocol "sctp") eq_refl)).
    simpl. intros H. repeat (destruct H as [H | H]; [discriminate H|]). exact H.
  - apply (proj2 (ToNetAddr_rejects sample.IP_String sample.canon
                    sample.ResolveTCPAddr sample.ResolveUDPAddr
                    sample.ResolveIPAddr sample.utp_ResolveAddr
                    [seg "ip4" (Some "1.2.3.4"); seg "tcp" (Some "80");
                     seg "tcp" (Some "81")]
                    (ma.mkProtocol "tcp") eq_refl)).
    + simpl. tauto.
    + reflexivity.
Defined.

Lemma FromNetAddr_wrong_type_witness :
  manet.FromNetAddr sample.registry (Some (net.OtherAddr "tcp4" "10.20.30.40:80"))
  = Err ErrIncorrectNetAddr
  /\ manet.FromNetAddr sample.registry
       (Some (net.utp_Addr "utp" (net.TCPAddr sample.ip_10_20_30_40 80 "")))
     = Err ErrIncorrectNetAddr.
Proof.
  destruct (FromNetAddr_wrong_type sample.IP_String sample.canon
              sample.ResolveTCPAddr sample.ResolveUDPAddr
              sample.ResolveIPAddr sample.utp_ResolveAddr) as [Hother Hutp].
  split.
  - apply Hother. simpl. tauto.
  - apply Hutp; [simpl; tauto | discriminate].
Defined.

Lemma FromNetAddr_bad_IP_witness :
  manet.FromNetAddr sample.registry (Some (net.TCPAddr [] 80 ""))
  = Err ErrIncorrectNetAddr.
Proof.
  apply (FromNetAddr_bad_IP sample.IP_String sample.canon
           sample.ResolveTCPAddr sample.ResolveUDPAddr
           sample.ResolveIPAddr sample.utp_ResolveAddr [] 80 ""); simpl; lia.
Defined.

Lemma FromNetAddr_Ret_thin_waist_witness :
  manet.IsThinWaist
    [seg "ip6" (Some "2001:db8:1:2:3:4:5:6"); seg "udp" (Some "53"); seg "utp" None]
  = true.
Proof.
  destruct (FromNetAddr_Ret_thin_waist sample.IP_String sample.canon
              sample.ResolveTCPAddr sample.ResolveUDPAddr
              sample.ResolveIPAddr sample.utp_ResolveAddr
              (net.utp_Addr "utp" (net.UDPAddr sample.ip_2001_db8 53 ""))
              [seg "ip6" (Some "2001:db8:1:2:3:4:5:6"); seg "udp" (Some "53");
               seg "utp" None]
              eq_refl)
    as (ip & port & zone & t & [[Ha _] | [[Ha _] | (net & Ha & _)]] & H);
    try discriminate Ha.
  injection Ha as <- <- <-. apply H. split; [discriminate | reflexivity].
Defined.

Lemma round_trip_TCPAddr_witness :
  round_trip sample.registry (net.TCPAddr sample.ip_10_20_30_40 80 "")
  = sample.ResolveTCPAddr "tcp4" "10.20.30.40:80".
Proof.
  apply (round_trip_TCPAddr sample.IP_String sample.canon
           sample.ResolveTCPAddr sample.ResolveUDPAddr
           sample.ResolveIPAddr sample.utp_ResolveAddr
           sample.ip_10_20_30_40 80 "" "ip4" "10.20.30.40" "80");
    (left; reflexivity) || reflexivity.
Defined.

Lemma round_trip_UDPAddr_witness :
  round_trip sample.registry (net.UDPAddr sample.ip_2001_db8 53 "")
  = sample.ResolveUDPAddr "udp6" "[2001:db8:1:2:3:4:5:6]:53".
Proof.
  apply (round_trip_UDPAddr sample.IP_String sample.canon
           sample.ResolveTCPAddr sample.ResolveUDPAddr
           sample.ResolveIPAddr sample.utp_ResolveAddr
           sample.ip_2001_db8 53 "" "ip6" "2001:db8:1:2:3:4:5:6" "53");
    (right; reflexivity) || reflexivity.
Defined.

Lemma round_trip_utp_Addr_witness :
  round_trip sample.registry (net.utp_Addr "utp" (net.UDPAddr sample.ip_mapped 9 ""))
  = sample.utp_ResolveAddr "utp4" "10.20.30.40:9".
Proof.
  apply (round_trip_utp_Addr sample.IP_String sample.canon
           sample.ResolveTCPAddr sample.ResolveUDPAddr
           sample.ResolveIPAddr sample.utp_ResolveAddr
           sample.ip_mapped 9 "" "ip4" "10.20.30.40" "9");
    (left; reflexivity) || reflexivity.
Defined.
